(** * Shallow embedding of the scripting SDK objects of Insomnia

    Sources: [sdk-objects/send-req.ts] (auth transforms, [HttpSendRequest],
    lowering and lifting between SDK and transport-engine forms) and
    [sdk-objects/req-resp.ts] ([RequestBody], [Request], [Response]). *)

From Stdlib Require Import String Ascii List ZArith NArith Bool Lia.
Import ListNotations.
Open Scope string_scope.

(** ** JavaScript values and exceptions *)

Set Warnings "-register-all".

Module JS.

(** The dynamically typed values the transforms read and build. Object
    literals are association lists in source order. *)
Inductive jsval : Type :=
| JUndef
| JNull
| JBool (b : bool)
| JNum (z : Z)
| JStr (s : string)
| JArr (xs : list jsval)
| JObj (fs : list (string * jsval)).

(** A thrown [Error]: its [name] ("Error", "TypeError", "AbortError") and
    its [message]. *)
Record jserror := mkError { err_name : string; err_message : string }.

Definition Error (msg : string) : jserror := mkError "Error" msg.
Definition TypeError (msg : string) : jserror := mkError "TypeError" msg.

(** Code that may throw. *)
Inductive jsres (A : Type) : Type :=
| Ok (a : A)
| Throw (e : jserror).
Arguments Ok {A} a.
Arguments Throw {A} e.

Definition bind {A B} (m : jsres A) (f : A -> jsres B) : jsres B :=
  match m with
  | Ok a => f a
  | Throw e => Throw e
  end.

Notation "'let*' x ':=' m 'in' f" := (bind m (fun x => f))
  (at level 200, x name, m at level 100, f at level 200).

(** JS truthiness. *)
Definition truthy (v : jsval) : bool :=
  match v with
  | JUndef | JNull => false
  | JBool b => b
  | JNum z => negb (Z.eqb z 0)
  | JStr s => negb (String.eqb s "")
  | JArr _ | JObj _ => true
  end.

(** [a || b] *)
Definition js_or (a b : jsval) : jsval := if truthy a then a else b.

(** Property read [v.k] on a value that is not [null]/[undefined]: the first
    field of that name of an object, [undefined] otherwise. *)
Fixpoint assoc (k : string) (fs : list (string * jsval)) : jsval :=
  match fs with
  | [] => JUndef
  | (k', v) :: fs' => if String.eqb k k' then v else assoc k fs'
  end.

Definition get (v : jsval) (k : string) : jsval :=
  match v with
  | JObj fs => assoc k fs
  | _ => JUndef
  end.

(** [v === JStr s] *)
Definition is_str (v : jsval) (s : string) : bool :=
  match v with
  | JStr s' => String.eqb s' s
  | _ => false
  end.

(** Decimal rendering of a natural number (template-literal conversion). *)
Fixpoint digits (fuel : nat) (n : N) (acc : string) : string :=
  let acc' := String (ascii_of_N (48 + N.modulo n 10)) acc in
  match fuel with
  | O => acc'
  | S f => if N.ltb n 10 then acc' else digits f (N.div n 10) acc'
  end.

Definition z_to_string (z : Z) : string :=
  match z with
  | Zneg p => "-" ++ digits (Pos.size_nat p) (Npos p) ""
  | _ => digits (Z.to_nat (Z.log2 z + 1)) (Z.to_N z) ""
  end.

(** [`${v}`] *)
Fixpoint js_to_string (v : jsval) : string :=
  match v with
  | JUndef => "undefined"
  | JNull => "null"
  | JBool true => "true"
  | JBool false => "false"
  | JNum z => z_to_string z
  | JStr s => s
  | JArr xs =>
      String.concat ","
        (map (fun x => match x with
                       | JUndef | JNull => ""
                       | _ => js_to_string x
                       end) xs)
  | JObj _ => "[object Object]"
  end.

End JS.
Import JS.

(** ** Auth transform table ([send-req.ts]) *)

Module Auth.

Definition AUTH_NONE := "none".
Definition AUTH_API_KEY := "apikey".
Definition AUTH_OAUTH_2 := "oauth2".
Definition AUTH_OAUTH_1 := "oauth1".
Definition AUTH_BASIC := "basic".
Definition AUTH_DIGEST := "digest".
Definition AUTH_BEARER := "bearer".
Definition AUTH_NTLM := "ntlm".
Definition AUTH_HAWK := "hawk".
Definition AUTH_AWS_IAM := "iam".
Definition AUTH_NETRC := "netrc".
Definition AUTH_ASAP := "asap".
Definition HAWK_ALGORITHM_SHA256 := "sha256".
Definition HAWK_ALGORITHM_SHA1 := "sha1".

(** [transformAuth(type, oldAuth = {})]: the [switch] compares [type] with
    the scheme constants; [netrc] and every other string fall to the shared
    last branch. *)
Definition transformAuth (type : string) (oldAuth : jsval) : jsval :=
  let f k d := js_or (get oldAuth k) d in
  if String.eqb type AUTH_NONE then JObj []
  else if String.eqb type AUTH_BASIC then
    JObj [("type", JStr type);
          ("useISO88591", f "useISO88591" (JBool false));
          ("disabled", f "disabled" (JBool false));
          ("username", f "username" (JStr ""));
          ("password", f "password" (JStr ""))]
  else if String.eqb type AUTH_DIGEST || String.eqb type AUTH_NTLM then
    JObj [("type", JStr type);
          ("disabled", f "disabled" (JBool false));
          ("username", f "username" (JStr ""));
          ("password", f "password" (JStr ""))]
  else if String.eqb type AUTH_OAUTH_1 then
    JObj [("type", JStr type);
          ("disabled", JBool false);
          ("signatureMethod", JStr "HMAC-SHA1");
          ("consumerKey", JStr "");
          ("consumerSecret", JStr "");
          ("tokenKey", JStr "");
          ("tokenSecret", JStr "");
          ("privateKey", JStr "");
          ("version", JStr "1.0");
          ("nonce", JStr "");
          ("timestamp", JStr "");
          ("callback", JStr "")]
  else if String.eqb type AUTH_OAUTH_2 then
    JObj [("type", JStr type); ("grantType", JStr "authorization_code")]
  else if String.eqb type AUTH_AWS_IAM then
    JObj [("type", JStr type);
          ("disabled", f "disabled" (JBool false));
          ("accessKeyId", f "accessKeyId" (JStr ""));
          ("secretAccessKey", f "secretAccessKey" (JStr ""));
          ("sessionToken", f "sessionToken" (JStr ""))]
  else if String.eqb type AUTH_HAWK then
    JObj [("type", JStr type); ("algorithm", JStr HAWK_ALGORITHM_SHA256)]
  else if String.eqb type AUTH_ASAP then
    JObj [("type", JStr type);
          ("issuer", JStr "");
          ("subject", JStr "");
          ("audience", JStr "");
          ("additionalClaims", JStr "");
          ("keyId", JStr "");
          ("privateKey", JStr "")]
  else JObj [("type", JStr type)].

(** The callback passed to [kvs.find]: [kv.key === targetKey ? kv.value : ''].
    Reading [kv.key] of a [null]/[undefined] element throws. *)
Definition find_callback (targetKey : string) (kv : jsval) : jsres jsval :=
  match kv with
  | JUndef | JNull =>
      Throw (TypeError ("Cannot read properties of " ++ js_to_string kv))
  | _ => Ok (if is_str (get kv "key") targetKey then get kv "value" else JStr "")
  end.

(** [Array.prototype.find]: the first ELEMENT whose callback result is
    truthy, [undefined] when there is none. *)
Fixpoint array_find (targetKey : string) (xs : list jsval) : jsres jsval :=
  match xs with
  | [] => Ok JUndef
  | kv :: xs' =>
      let* r := find_callback targetKey kv in
      if truthy r then Ok kv else array_find targetKey xs'
  end.

(** [findValueInObj(targetKey, kvs)] *)
Definition findValueInObj (targetKey : string) (kvs : jsval) : jsres jsval :=
  if negb (truthy kvs) then Ok (JStr "")
  else match kvs with
       | JArr xs => array_find targetKey xs
       | _ => Throw (TypeError "kvs.find is not a function")
       end.

(** [transformAuthentication(auth)], taken at [authObj = auth.toJSON()]. *)
Definition transformAuthentication (authObj : jsval) : jsres jsval :=
  let fv k scheme := findValueInObj k (get authObj scheme) in
  let ty := get authObj "type" in
  if is_str ty "noauth" then Ok (transformAuth AUTH_NONE (JObj []))
  else if is_str ty "basic" then
    let* u := fv "username" "basic" in
    let* p := fv "password" "basic" in
    Ok (transformAuth AUTH_BASIC
          (JObj [("useISO88591", JBool false); ("disabled", JBool false);
                 ("username", u); ("password", p)]))
  else if is_str ty "digest" then
    let* u := fv "username" "digest" in
    let* p := fv "password" "digest" in
    Ok (transformAuth AUTH_DIGEST
          (JObj [("disabled", JBool false); ("username", u); ("password", p)]))
  else if is_str ty "ntlm" then
    let* u := fv "username" "ntlm" in
    let* p := fv "password" "ntlm" in
    Ok (transformAuth AUTH_NTLM
          (JObj [("disabled", JBool false); ("username", u); ("password", p)]))
  else if is_str ty "oauth1" then
    let* ck := fv "consumerKey" "oauth1" in
    let* cs := fv "consumerSecret" "oauth1" in
    let* tk := fv "token" "oauth1" in
    let* ts := fv "tokenSecret" "oauth1" in
    let* pk := fv "consumerSecret" "oauth1" in
    let* ver := fv "version" "oauth1" in
    let* no := fv "nonce" "oauth1" in
    let* tm := fv "timestamp" "oauth1" in
    let* cb := fv "callback" "oauth1" in
    Ok (transformAuth AUTH_OAUTH_1
          (JObj [("disabled", JBool false); ("consumerKey", ck);
                 ("consumerSecret", cs); ("tokenKey", tk); ("tokenSecret", ts);
                 ("privateKey", pk); ("version", ver); ("nonce", no);
                 ("timestamp", tm); ("callback", cb)]))
  else if is_str ty "oauth2" then Ok (transformAuth AUTH_OAUTH_2 (JObj []))
  else if is_str ty "awsv4" then
    let* ak := fv "accessKey" "awsv4" in
    let* sk := fv "secretKey" "awsv4" in
    let* st := fv "sessionToken" "awsv4" in
    Ok (transformAuth AUTH_AWS_IAM
          (JObj [("disabled", JBool false); ("accessKeyId", ak);
                 ("secretAccessKey", sk); ("sessionToken", st)]))
  else if is_str ty "hawk" then Ok (transformAuth AUTH_HAWK (JObj []))
  else if is_str ty "asap" then
    let* iss := fv "iss" "asap" in
    let* sub := fv "sub" "asap" in
    let* aud := fv "aud" "asap" in
    let* cl := fv "claims" "asap" in
    let* kid := fv "kid" "asap" in
    let* pk := fv "privateKey" "asap" in
    Ok (transformAuth AUTH_ASAP
          (JObj [("issuer", iss); ("subject", sub); ("audience", aud);
                 ("additionalClaims", cl); ("keyId", kid); ("privateKey", pk)]))
  else if is_str ty "netrc" then Ok (transformAuth AUTH_NETRC (JObj []))
  else Throw (Error ("unknown auth type: " ++ js_to_string ty)).

(** A [{ key, value }] entry of a persisted-form array. *)
Definition kv (k : string) (v : jsval) : jsval :=
  JObj [("key", JStr k); ("value", v)].

(** [transformToPreRequestAuth(auth)] *)
Definition transformToPreRequestAuth (auth : jsval) : jsres jsval :=
  let e k := kv k (get auth k) in
  let ty := get auth "type" in
  if negb (truthy auth) || negb (truthy ty) then Ok (JObj [("type", JStr "noauth")])
  else if is_str ty "noauth" then Ok (JObj [("type", JStr "noauth")])
  else if is_str ty "basic" then
    Ok (JObj [("type", JStr "basic");
              ("basic", JArr [e "useISO88591"; e "disabled"; e "username"; e "password"])])
  else if is_str ty "digest" then
    Ok (JObj [("type", JStr "digest");
              ("digest", JArr [e "disabled"; e "username"; e "password"])])
  else if is_str ty "ntlm" then
    Ok (JObj [("type", JStr "ntlm");
              ("ntlm", JArr [e "disabled"; e "username"; e "password"])])
  else if is_str ty "oauth1" then
    Ok (JObj [("type", JStr "oauth1");
              ("oauth1", JArr [e "disabled"; e "consumerKey"; e "consumerSecret";
                               e "tokenKey"; e "tokenSecret"; e "privateKey";
                               e "version"; e "nonce"; e "timestamp"; e "callback"])])
  else if is_str ty "oauth2" then
    Ok (JObj [("type", JStr "oauth2");
              ("oauth2", JArr [e "key"; e "value"; e "enabled"; e "send_as"])])
  else if is_str ty "awsv4" then
    Ok (JObj [("type", JStr "awsv4");
              ("awsv4", JArr [e "disabled"; e "accessKeyId"; e "secretAccessKey";
                              e "sessionToken"])])
  else if is_str ty "hawk" then
    Ok (JObj [("type", JStr "hawk");
              ("hawk", JArr [e "includePayloadHash"; e "timestamp"; e "delegation";
                             e "app"; e "extraData"; e "nonce"; e "user";
                             e "authKey"; e "authId"; e "algorithm"; e "id"])])
  else if is_str ty "asap" then
    Ok (JObj [("type", JStr "asap");
              ("asap", JArr [e "exp"; e "claims"; e "sub"; e "privateKey"; e "kid";
                             e "aud"; e "iss"; e "alg"; e "id"])])
  else if is_str ty "netrc" then Throw (Error "net rc is not supported yet")
  else Throw (Error ("unknown auth type or unsupported auth type: " ++ js_to_string ty)).

End Auth.

(** ** RequestBody ([req-resp.ts]) *)

Module Body.

Record FormParam := mkFormParam { fp_key : string; fp_value : string }.
Record QueryParam := mkQueryParam { qp_key : string; qp_value : string }.

(** [RequestBodyMode = undefined | 'formdata' | 'urlencoded' | 'raw' | 'file'
    | 'graphql']; at run time the field holds whatever string was passed. *)
Definition RequestBodyMode := option string.

(** The [urlencoded] option: an encoded string or a key/value list. *)
Inductive UrlencodedOpt :=
| UEString (s : string)
| UEList (kvs : list (string * string)).

Record RequestBodyOptions := mkRequestBodyOptions {
  o_mode : RequestBodyMode;
  o_file : option string;
  o_formdata : option (list (string * string));
  o_graphql : jsval;
  o_raw : option string;
  o_urlencoded : option UrlencodedOpt }.

Record RequestBody := mkRequestBody {
  mode : RequestBodyMode;
  file : option string;
  formdata : option (list FormParam);
  graphql : jsval;
  raw : option string;
  urlencoded : option (list QueryParam) }.

Definition mode_is (m : RequestBodyMode) (s : string) : bool :=
  match m with
  | Some m' => String.eqb m' s
  | None => false
  end.

(** [`${this.mode}`] *)
Definition mode_to_string (m : RequestBodyMode) : string :=
  match m with
  | Some s => s
  | None => "undefined"
  end.

(** [x == null] *)
Definition is_nullish {A} (x : option A) : bool :=
  match x with None => true | Some _ => false end.

Definition str_truthy (x : option string) : bool :=
  match x with Some s => negb (String.eqb s "") | None => false end.

(** [b] and [b'] hold the same payload in the field that mode [m] reads. *)
Definition same_payload (m : string) (b b' : RequestBody) : Prop :=
  if String.eqb m "formdata" then formdata b = formdata b'
  else if String.eqb m "urlencoded" then urlencoded b = urlencoded b'
  else if String.eqb m "raw" then raw b = raw b'
  else if String.eqb m "file" then file b = file b'
  else if String.eqb m "graphql" then graphql b = graphql b'
  else False.

Section BodyOps.

(** [QueryParam.parse] (urls.ts), [JSON.stringify] and the [toString] of a
    [PropertyList] (base.ts) are library code outside this slice; every
    statement below holds for any of their behaviours. *)
Variable QueryParam_parse : string -> list (string * jsval).
Variable JSON_stringify : jsval -> jsres string.
Variable formdata_toString : list FormParam -> jsres string.
Variable urlencoded_toString : list QueryParam -> jsres string.

(** [new RequestBody(opts)] *)
Definition newRequestBody (opts : RequestBodyOptions) : jsres RequestBody :=
  let fd := option_map (map (fun '(k, v) => mkFormParam k v)) (o_formdata opts) in
  let* ue :=
    match o_urlencoded opts with
    | Some (UEString s) =>
        if String.eqb s "" then Ok None
        else
          let fix conv (es : list (string * jsval)) : jsres (list QueryParam) :=
            match es with
            | [] => Ok []
            | (k, v) :: es' =>
                let* sv := JSON_stringify v in
                let* rest := conv es' in
                Ok (mkQueryParam k sv :: rest)
            end in
          let* qs := conv (QueryParam_parse s) in
          Ok (Some qs)
    | Some (UEList kvs) => Ok (Some (map (fun '(k, v) => mkQueryParam k v) kvs))
    | None => Ok None
    end in
  Ok (mkRequestBody (o_mode opts) (o_file opts) fd (o_graphql opts) (o_raw opts) ue).

(** [RequestBody.isEmpty()] *)
Definition isEmpty (b : RequestBody) : jsres bool :=
  if mode_is (mode b) "formdata" then Ok (is_nullish (formdata b))
  else if mode_is (mode b) "urlencoded" then Ok (is_nullish (urlencoded b))
  else if mode_is (mode b) "raw" then Ok (is_nullish (raw b))
  else if mode_is (mode b) "file" then Ok (is_nullish (file b))
  else if mode_is (mode b) "graphql" then
    Ok (match graphql b with JUndef | JNull => true | _ => false end)
  else Throw (Error ("mode (" ++ mode_to_string (mode b) ++ ") is unexpected")).

(** The body of the [try] block of [RequestBody.toString()]. *)
Definition toString_try (b : RequestBody) : jsres string :=
  if mode_is (mode b) "formdata" then
    match formdata b with Some fd => formdata_toString fd | None => Ok "" end
  else if mode_is (mode b) "urlencoded" then
    match urlencoded b with Some ue => urlencoded_toString ue | None => Ok "" end
  else if mode_is (mode b) "raw" then
    Ok (if str_truthy (raw b) then match raw b with Some r => r | None => "" end else "")
  else if mode_is (mode b) "file" then
    Ok (match file b with Some f => f | None => "" end)
  else if mode_is (mode b) "graphql" then
    if truthy (graphql b) then JSON_stringify (graphql b) else Ok ""
  else Throw (Error ("mode (" ++ mode_to_string (mode b) ++ ") is unexpected")).

(** [RequestBody.toString()]: the [catch] turns every exception into [''].*)
Definition toString (b : RequestBody) : string :=
  match toString_try b with
  | Ok s => s
  | Throw _ => ""
  end.

End BodyOps.

End Body.

(** ** Response ([req-resp.ts]) and its reconstruction ([send-req.ts]) *)

Module Resp.

(** A JS string as its UTF-16 code units ([charCodeAt]). *)
Definition text16 := list N.

Record HeaderOptions := mkHeaderOptions { h_key : string; h_value : string }.

(** The fields of a parsed tough-cookie [Cookie] that the code copies;
    [expires] is a [Date] or ['Infinity'], [maxAge] a number or ['Infinity'],
    hence [jsval]. *)
Record CookieOptions := mkCookieOptions {
  c_key : string; c_value : string; c_expires : jsval; c_maxAge : jsval;
  c_domain : jsval; c_path : jsval; c_secure : bool; c_httpOnly : bool;
  c_hostOnly : jsval }.

Record ResponseOptions := mkResponseOptions {
  ro_code : Z;
  ro_reason : option string;
  ro_header : option (list HeaderOptions);
  (* typed [CookieOptions[]]; [None] is a [null] element *)
  ro_cookie : option (list (option CookieOptions));
  ro_body : option text16;
  ro_stream : option text16;
  ro_responseTime : Z;
  ro_status : option string }.

Record Response := mkResponse {
  body : text16;
  code : Z;
  (* the [new Cookie(c)] of each element (cookies.ts, not in these files)
     by its argument; [None] is [new Cookie(null)] *)
  cookies : list (option CookieOptions);
  headers : list HeaderOptions;
  responseTime : Z;
  status : option string;
  stream : option text16 }.

(** Modelled from the spec: [RESPONSE_CODE_REASONS] of [common/constants]
    (not in this slice), "a static status-code table"; [None] is the
    [undefined] read of an absent code. The entries are the standard HTTP
    reason phrases. *)
Definition RESPONSE_CODE_REASONS_table : list (Z * string) :=
  Eval cbv in map (fun '(c, r) => (Z.of_nat c, r))
  [(100, "Continue"); (101, "Switching Protocols"); (102, "Processing");
   (200, "OK"); (201, "Created"); (202, "Accepted");
   (203, "Non-Authoritative Information"); (204, "No Content");
   (205, "Reset Content"); (206, "Partial Content");
   (300, "Multiple Choices"); (301, "Moved Permanently"); (302, "Found");
   (303, "See Other"); (304, "Not Modified"); (307, "Temporary Redirect");
   (308, "Permanent Redirect"); (400, "Bad Request"); (401, "Unauthorized");
   (403, "Forbidden"); (404, "Not Found"); (405, "Method Not Allowed");
   (500, "Internal Server Error"); (502, "Bad Gateway");
   (503, "Service Unavailable"); (504, "Gateway Timeout")]%nat.

Fixpoint lookup_reason (tbl : list (Z * string)) (c : Z) : option string :=
  match tbl with
  | [] => None
  | (c', r) :: tbl' => if Z.eqb c c' then Some r else lookup_reason tbl' c
  end.

Definition RESPONSE_CODE_REASONS (c : Z) : option string :=
  lookup_reason RESPONSE_CODE_REASONS_table c.

(** [new Response(options)]; [new Cookie] and [new Header] keep the option
    fields. *)
Definition newResponse (options : ResponseOptions) : Response :=
  {| body := match ro_body options with Some b => b | None => [] end;
     code := ro_code options;
     cookies := match ro_cookie options with Some cs => cs | None => [] end;
     headers := match ro_header options with Some hs => hs | None => [] end;
     responseTime := ro_responseTime options;
     status := RESPONSE_CODE_REASONS (ro_code options);
     stream := ro_stream options |}.

(** [content.charCodeAt(i) === v]; out of range it is [NaN]. *)
Definition char_code_is (content : text16) (i : nat) (v : N) : bool :=
  match nth_error content i with
  | Some c => N.eqb c v
  | None => false
  end.

(** [Response.findBOM(content)] *)
Definition findBOM (content : text16) : nat :=
  if char_code_is content 0 0xFEFF || char_code_is content 0 0xBBBF then 1
  else if char_code_is content 0 0xFE && char_code_is content 1 0xFF then 2
  else if char_code_is content 0 0xFF && char_code_is content 1 0xFE then 2
  else if char_code_is content 0 0xEF && char_code_is content 1 0xBB
          && char_code_is content 2 0xBF then 3
  else 0.

Definition BOM_ERROR_MESSAGE := "byte order mark (BOM) is found while strict=true".
Definition JSON_ERROR_PREFIX := "failed to get json of body: ".

Section Json.

(** [JSON.parse(·, reviver)] for the caller's [reviver]: the value, or the
    thrown [SyntaxError]. *)
Variable JSON_parse : text16 -> jsres jsval.

(** [Response.json(reviver, strict)]; [strict] is [undefined] or a boolean. *)
Definition json (r : Response) (strict : option bool) : jsres jsval :=
  let content := body r in
  let bomIndex := findBOM (body r) in
  let* content :=
    if Nat.ltb 0 bomIndex then
      match strict with
      | Some true => Throw (Error BOM_ERROR_MESSAGE)
      | _ => Ok (skipn bomIndex (body r))
      end
    else Ok content in
  match JSON_parse content with
  | Ok v => Ok v
  | Throw e => Throw (Error (JSON_ERROR_PREFIX ++ err_message e))
  end.

End Json.

(** [toLowerCase()] on a string of code units below 256 (Latin-1): the
    upper-case letters there are A-Z and U+00C0-U+00DE except U+00D7, and
    each maps 32 code units up; every other unit is kept. In the default
    (non-Turkish, non-Azeri, non-Lithuanian) locale [toLocaleLowerCase()]
    does the same. *)
Definition lower_ascii (c : ascii) : ascii :=
  let n := nat_of_ascii c in
  if (Nat.leb 65 n && Nat.leb n 90)
     || (Nat.leb 192 n && Nat.leb n 222 && negb (Nat.eqb n 215))
  then ascii_of_nat (n + 32) else c.

Fixpoint toLowerCase (s : string) : string :=
  match s with
  | EmptyString => EmptyString
  | String c s' => String (lower_ascii c) (toLowerCase s')
  end.

Record ResponseHeader := mkResponseHeader { rh_name : string; rh_value : string }.

Record HeaderResult := mkHeaderResult {
  hr_headers : list ResponseHeader;
  hr_version : string;
  hr_code : Z;
  hr_reason : string }.

Record CurlRequestOutput := mkCurlRequestOutput {
  elapsedTime : Z;                      (* patch.elapsedTime *)
  bodyCompression : option string;      (* patch.bodyCompression *)
  headerResults : list HeaderResult;
  responseBodyPath : option string }.

(** [headerResults[headerResults.length - 1]] *)
Fixpoint last_opt {A} (xs : list A) : option A :=
  match xs with
  | [] => None
  | [x] => Some x
  | _ :: xs' => last_opt xs'
  end.

(** The copy of a parsed cookie into a [CookieOptions] object. *)
Definition cookie_to_options (c : CookieOptions) : CookieOptions :=
  {| c_key := c_key c; c_value := c_value c; c_expires := c_expires c;
     c_maxAge := c_maxAge c; c_domain := c_domain c; c_path := c_path c;
     c_secure := c_secure c; c_httpOnly := c_httpOnly c;
     c_hostOnly := c_hostOnly c |}.

(** What tough-cookie's [Cookie.parse(str)] (third-party) returns: a
    [Cookie], [null] (for an empty string) or [undefined] (when the cookie
    pair does not parse). *)
Inductive ParsedCookie :=
| PCookie (c : CookieOptions)
| PNull
| PUndefined.

(** [cookieOpt !== undefined] *)
Definition cookie_not_undefined (o : ParsedCookie) : bool :=
  match o with PUndefined => false | _ => true end.

(** An element of the filtered array: a cookie object or [null]. *)
Definition cookie_element (o : ParsedCookie) : option CookieOptions :=
  match o with PCookie c => Some c | _ => None end.

Section Lift.

Variable Cookie_parse : string -> ParsedCookie.

(** [window.curl.readCurlResponse({bodyPath, bodyCompression})]: the
    resolved [{ body, error? }]. *)
Variable readCurlResponse : string -> option string -> text16 * option string.

Definition is_set_cookie (h : ResponseHeader) : bool :=
  String.eqb (toLowerCase (rh_name h)) "set-cookie".

(** The [cookieHeaders ... .map(...) .filter(cookieOpt => cookieOpt !==
    undefined)] pipeline over the last hop's headers, then read as the
    [CookieOptions[]] it is cast to. [cookieHeader.value || ''] is the value
    itself, a string. *)
Definition cookiesOf (hs : list ResponseHeader) : list (option CookieOptions) :=
  let cookieHeaders := filter is_set_cookie hs in
  let cookies :=
    filter cookie_not_undefined
      (map (fun ch =>
              let cookieObj := Cookie_parse (rh_value ch) in
              match cookieObj with
              | PCookie c => PCookie (cookie_to_options c)
              | _ => cookieObj
              end) cookieHeaders) in
  map cookie_element cookies.

(** [fromCurlOutputToResponse(result)]; an empty [headerResults] makes
    [lastRedirect.code] a [TypeError]. *)
Definition fromCurlOutputToResponse (result : CurlRequestOutput) : jsres Response :=
  match last_opt (headerResults result) with
  | None => Throw (TypeError "Cannot read properties of undefined (reading 'code')")
  | Some lastRedirect =>
      let code := hr_code lastRedirect in
      let reason := hr_reason lastRedirect in
      let status := hr_reason lastRedirect in
      let responseTime := elapsedTime result in
      let headers := map (fun h => mkHeaderOptions (rh_name h) (rh_value h))
                         (hr_headers lastRedirect) in
      let cookies := cookiesOf (hr_headers lastRedirect) in
      match responseBodyPath result with
      | None | Some "" =>
          Ok (newResponse (mkResponseOptions code (Some reason) (Some headers)
                             (Some cookies) (Some []) None responseTime (Some status)))
      | Some path =>
          let '(b, err) := readCurlResponse path (bodyCompression result) in
          match err with
          | Some e => if String.eqb e "" then
                        Ok (newResponse (mkResponseOptions code (Some reason) (Some headers)
                              (Some cookies) (Some b) None responseTime (Some status)))
                      else Throw (Error e)
          | None =>
              Ok (newResponse (mkResponseOptions code (Some reason) (Some headers)
                    (Some cookies) (Some b) None responseTime (Some status)))
          end
      end
  end.

End Lift.




End Resp.

(** ** Dispatch bridge: [fromRequestToCurlOptions] and [HttpSendRequest] *)

Module Bridge.
Import Resp.

Record Settings := mkSettings { followRedirects : bool }.

(** An SDK header: [key], [value], [disabled]. *)
Record SdkHeader := mkSdkHeader { sh_key : string; sh_value : string; sh_disabled : jsval }.

(** What the lowering reads of [finalReq] (an SDK [Request], or
    [new Request(req)] for a plain options object). *)
Record SdkRequestView := mkSdkRequestView {
  sr_id : string;               (* finalReq.id, '' when unset *)
  sr_headers : list SdkHeader;
  sr_method : string;
  sr_bodyText : option string;  (* finalReq.body?.toString() *)
  sr_auth : jsval;              (* finalReq.auth.toJSON() *)
  sr_url : string;              (* finalReq.url.toString() *)
  sr_certificate : jsval }.     (* finalReq.certificate, undefined if unset *)

(** [string | Request | RequestOptions], or a value that is none of them:
    an object that is not a [Request] and has no [url], or a primitive
    other than a string ([null], [undefined], a number, ...), by the text
    [String(req)] the engine shows for it. *)
Inductive RequestLike :=
| RLString (url : string)
| RLRequest (r : SdkRequestView)
| RLObject
| RLPrimitive (shown : string).

Record CurlOptions := mkCurlOptions {
  requestId : string;
  req_headers : list (string * string);
  req_method : string;
  req_bodyText : option string;
  req_authentication : jsval;
  req_settingFollowRedirects : string;
  req_url : string;
  req_suppressUserAgent : bool;
  finalUrl : string;
  certificates : list jsval }.

(** Modelled from the spec: [RequestAuth.toJSON()] (auth.ts, not in this
    slice) of [new RequestAuth({ type: 'noauth' })], the persisted form
    [{type, <schemeName>: [...]}] of the [noauth] scheme. *)
Definition noauth_json : jsval := JObj [("type", JStr "noauth")].

Definition or_empty (v : jsval) : jsval := js_or v (JStr "").

(** [fromRequestToCurlOptions(req, settings)]; [uuid] is [uuidv4()]. *)
Definition fromRequestToCurlOptions (settings : Settings) (uuid : string)
    (req : RequestLike) : jsres CurlOptions :=
  let settingFollowRedirects := if followRedirects settings then "on" else "off" in
  match req with
  | RLString url =>
      let* auth := Auth.transformAuthentication noauth_json in
      Ok {| requestId := "pre-request-script-adhoc-str-req:" ++ uuid;
            req_headers := [];
            req_method := "GET";
            req_bodyText := None;
            req_authentication := auth;
            req_settingFollowRedirects := settingFollowRedirects;
            req_url := url;
            req_suppressUserAgent := false;
            finalUrl := url;
            certificates := [] |}
  | RLRequest finalReq =>
      let* auth := Auth.transformAuthentication (sr_auth finalReq) in
      let cert := sr_certificate finalReq in
      Ok {| requestId := if String.eqb (sr_id finalReq) "" then
                           "pre-request-script-adhoc-req:" ++ uuid
                         else sr_id finalReq;
            req_headers := map (fun h => (sh_key h, sh_value h)) (sr_headers finalReq);
            req_method := sr_method finalReq;
            req_bodyText := sr_bodyText finalReq;
            req_authentication := auth;
            req_settingFollowRedirects := settingFollowRedirects;
            req_url := sr_url finalReq;
            (* [headers.map(...)] keeps one entry per header *)
            req_suppressUserAgent := Nat.ltb 0 (length (sr_headers finalReq));
            finalUrl := sr_url finalReq;
            certificates :=
              if truthy cert then
                [JObj [("host", or_empty (get cert "name"));
                       ("passphrase", or_empty (get cert "passphrase"));
                       ("cert", or_empty (get (get cert "cert") "src"));
                       ("key", or_empty (get (get cert "key") "src"));
                       ("pfx", or_empty (get (get cert "pfx") "src"));
                       ("disabled", JBool false); ("isPrivate", JBool false);
                       ("_id", JStr ""); ("type", JStr ""); ("parentId", JStr "");
                       ("modified", JNum 0); ("created", JNum 0); ("name", JStr "")]]
              else [] |}
  | RLObject =>
      Throw (Error "the request type must be: string | Request | RequestOptions.")
  | RLPrimitive shown =>
      (* [req instanceof Request] is false; ['url' in req] throws *)
      Throw (TypeError ("Cannot use 'in' operator to search for 'url' in " ++ shown))
  end.

(** The process-wide cancellation map, by its keys. *)
Definition Registry := list string.

Definition deleteCancelRequestFunctionMap (reg : Registry) (id : string) : Registry :=
  filter (fun x => negb (String.eqb x id)) reg.

Definition setCancelRequestFunctionMap (reg : Registry) (id : string) : Registry :=
  id :: deleteCancelRequestFunctionMap reg id.

(** How the promise returned by [window.curl.curlRequest] settles. *)
Inductive Settled :=
| Resolved (o : CurlRequestOutput)
| Rejected (e : jserror).

(** One run of the engine call: [curlRequest] (or the wrapper) throws
    synchronously, or it returns a promise that settles as [fn], with the
    registered [cancelRequest] invoked before it settles ([Some reason]) or
    not ([None]). *)
Inductive EngineRun :=
| CurlThrowsSync (e : jserror)
| CurlAsync (fn : Settled) (aborted : option string).

(** Modelled from the spec: [cancellablePromise({signal, fn})] of
    [network/cancellation] (not in this slice), "the call is wrapped so that
    it can be externally cancelled (abort-signal pattern)": it settles as
    [fn] unless the signal aborts first, and then rejects with an
    [AbortError]. *)
Definition cancellablePromise (aborted : option string) (fn : Settled) : Settled :=
  match aborted with
  | Some reason => Rejected (mkError "AbortError" reason)
  | None => fn
  end.

(** The arguments [cb] is called with. *)
Inductive Callback :=
| CbResponse (r : Response)              (* cb(undefined, response) *)
| CbErrorString (msg : string)           (* cb(`...`, undefined) *)
| CbErrorObj (e : jserror).              (* cb(e, undefined) *)

(** The [{ key, value }] headers a response is built with. *)
Definition header_options_of (hs : list ResponseHeader) : list HeaderOptions :=
  map (fun h => mkHeaderOptions (rh_name h) (rh_value h)) hs.

Section Send.

Variable Cookie_parse : string -> ParsedCookie.
Variable readCurlResponse : string -> option string -> text16 * option string.

(** [new HttpSendRequest(settings).sendRequest(request, cb)] run to
    completion: the registry afterwards and the calls made to [cb], or the
    exception [sendRequest] itself throws. *)
Definition sendRequest (settings : Settings) (uuid : string) (request : RequestLike)
    (reg : Registry) (run : EngineRun) : jsres (Registry * list Callback) :=
  let* requestOptions := fromRequestToCurlOptions settings uuid request in
  let id := requestId requestOptions in
  let reg1 := setCancelRequestFunctionMap reg id in
  match run with
  | CurlThrowsSync err =>
      let reg2 := deleteCancelRequestFunctionMap reg1 id in
      if String.eqb (err_name err) "AbortError" then
        Ok (reg2, [CbErrorString ("Request was cancelled: " ++ err_message err)])
      else
        Ok (reg2, [CbErrorString ("Something went wrong: " ++ err_message err)])
  | CurlAsync fn aborted =>
      match cancellablePromise aborted fn with
      | Rejected e => Ok (reg1, [CbErrorObj e])
      | Resolved output =>
          match fromCurlOutputToResponse Cookie_parse readCurlResponse output with
          | Ok transformedOutput => Ok (reg1, [CbResponse transformedOutput])
          | Throw e => Ok (reg1, [CbErrorObj e])
          end
      end
  end.

(** What the user's [cb] does when called with the given arguments:
    return ([None]) or throw ([Some e]). *)
Variable cb : Callback -> option jserror.

(** [sendRequest(request, cb)] with that [cb]: the registry afterwards, the
    calls made to [cb], and the exception [sendRequest] itself throws. A
    throw of [cb] in the synchronous [catch] escapes [sendRequest]; in the
    promise chain a throw of [cb(undefined, transformedOutput)] reaches the
    [.catch], which calls [cb] again with it, and a throw of that call only
    rejects the promise the chain returns. *)
Definition sendRequest_cb (settings : Settings) (uuid : string) (request : RequestLike)
    (reg : Registry) (run : EngineRun) : Registry * list Callback * option jserror :=
  match fromRequestToCurlOptions settings uuid request with
  | Throw e => (reg, [], Some e)
  | Ok requestOptions =>
      let id := requestId requestOptions in
      let reg1 := setCancelRequestFunctionMap reg id in
      match run with
      | CurlThrowsSync err =>
          let reg2 := deleteCancelRequestFunctionMap reg1 id in
          let call :=
            if String.eqb (err_name err) "AbortError" then
              CbErrorString ("Request was cancelled: " ++ err_message err)
            else CbErrorString ("Something went wrong: " ++ err_message err) in
          (reg2, [call], cb call)
      | CurlAsync fn aborted =>
          let '(calls, caught) :=
            match cancellablePromise aborted fn with
            | Rejected e => ([], Some e)
            | Resolved output =>
                match fromCurlOutputToResponse Cookie_parse readCurlResponse output with
                | Throw e => ([], Some e)
                | Ok transformedOutput =>
                    ([CbResponse transformedOutput], cb (CbResponse transformedOutput))
                end
            end in
          match caught with
          | None => (reg1, calls, None)
          | Some e => (reg1, (calls ++ [CbErrorObj e])%list, None)
          end
      end
  end.

End Send.

End Bridge.

(** ** Request and its [clone()] over a heap of mutable objects *)

Module Req.
Import Body.

(** Modelled from the spec: the state of a [Url] object (urls.ts, not in this
    slice), a structured wrapper whose query-parameter list
    [addQueryParams] appends to. *)
Record UrlState := mkUrlState { u_href : string; u_query : list (string * string) }.

Definition newUrl (s : string) : UrlState := mkUrlState s [].

(** An SDK [Header]; [new Header(opts)] and [header.toJSON()] keep these
    fields. *)
Record Header := mkHeader { hd_key : string; hd_value : string; hd_disabled : jsval }.

(** The mutable objects a [Request] points to. [OAuth] is a [RequestAuth]
    holding the persisted form its [toJSON()] returns (auth.ts, not in this
    slice). *)
Inductive obj :=
| OUrl (u : UrlState)
| OHeaders (hs : list Header)
| OBody (b : RequestBody)
| OAuth (a : jsval).

Definition loc := nat.

Record Heap := mkHeap { hnext : loc; hcells : list (loc * obj) }.

Definition empty_heap : Heap := mkHeap 0 [].

Definition alloc (h : Heap) (o : obj) : Heap * loc :=
  (mkHeap (S (hnext h)) ((hnext h, o) :: hcells h), hnext h).

Fixpoint lookup_cell (l : loc) (cs : list (loc * obj)) : option obj :=
  match cs with
  | [] => None
  | (l', o) :: cs' => if Nat.eqb l l' then Some o else lookup_cell l cs'
  end.

Definition read (h : Heap) (l : loc) : option obj := lookup_cell l (hcells h).

Definition write (h : Heap) (l : loc) (o : obj) : Heap :=
  mkHeap (hnext h) ((l, o) :: hcells h).

Record Request := mkRequest {
  r_url : loc;
  r_method : string;
  r_headers : loc;
  r_body : option loc;
  r_auth : loc;
  r_proxy : jsval;          (* undefined when unset *)
  r_certificate : jsval }.  (* undefined when unset *)

(** [options.url : string | Url]: a string, or a reference to a [Url]. *)
Inductive UrlArg :=
| UStr (s : string)
| UObj (l : loc).

(** [options.header : HeaderOptions[] | object]. *)
Inductive HeaderArg :=
| HArr (hs : list Header)
| HObj (kvs : list (string * string)).

Record RequestOptions := mkRequestOptions {
  opt_url : UrlArg;
  opt_method : option string;
  opt_header : option HeaderArg;
  opt_body : option RequestBodyOptions;
  opt_auth : jsval;
  opt_proxy : jsval;
  opt_certificate : jsval }.

(** [s.indexOf(sub) >= 0] *)
Definition contains (s sub : string) : bool :=
  match String.index 0 sub s with Some _ => true | None => false end.

Section ReqOps.

Variable QueryParam_parse : string -> list (string * jsval).
Variable JSON_stringify : jsval -> jsres string.

(** [new Request(options)] *)
Definition newRequest (options : RequestOptions) (h : Heap) : jsres (Heap * Request) :=
  let '(h1, url) :=
    match opt_url options with
    | UStr s => if contains s "://" then alloc h (OUrl (newUrl s))
                else alloc h (OUrl (newUrl ("https://" ++ s)))
    | UObj l => (h, l)
    end in
  let method := match opt_method options with
                | Some m => if String.eqb m "" then "GET" else m
                | None => "GET"
                end in
  let hs := match opt_header options with
            | Some (HArr hs) => hs
            | Some (HObj kvs) => map (fun '(k, v) => mkHeader k v JUndef) kvs
            | None => []
            end in
  let '(h2, headers) := alloc h1 (OHeaders hs) in
  let* bodyv :=
    match opt_body options with
    | Some bo => let* b := newRequestBody QueryParam_parse JSON_stringify bo in Ok (Some b)
    | None => Ok None
    end in
  let '(h3, body) :=
    match bodyv with
    | Some b => let '(h', l) := alloc h2 (OBody b) in (h', Some l)
    | None => (h2, None)
    end in
  let '(h4, auth) := alloc h3 (OAuth (js_or (opt_auth options) (JObj [("type", JStr "noauth")]))) in
  Ok (h4, {| r_url := url; r_method := method; r_headers := headers; r_body := body;
             r_auth := auth;
             r_proxy := if truthy (opt_proxy options) then opt_proxy options else JUndef;
             r_certificate := if truthy (opt_certificate options) then opt_certificate options
                              else JUndef |}).

Definition read_headers (h : Heap) (l : loc) : list Header :=
  match read h l with Some (OHeaders hs) => hs | _ => [] end.

Definition read_body (h : Heap) (l : option loc) : option RequestBody :=
  match l with
  | Some l' => match read h l' with Some (OBody b) => Some b | _ => None end
  | None => None
  end.

Definition read_auth (h : Heap) (l : loc) : jsval :=
  match read h l with Some (OAuth a) => a | _ => JUndef end.

(** [this.certificate?.matches?.map(match => match.toString())] *)
Definition matches_strings (m : jsval) : jsres jsval :=
  match m with
  | JUndef | JNull => Ok JUndef
  | JArr xs => Ok (JArr (map (fun x => JStr (js_to_string x)) xs))
  | _ => Throw (TypeError "matches.map is not a function")
  end.

(** [request.clone()] *)
Definition clone (r : Request) (h : Heap) : jsres (Heap * Request) :=
  let b := read_body h (r_body r) in
  let bf {A} (f : RequestBody -> option A) := match b with Some b' => f b' | None => None end in
  let proxy := r_proxy r in
  let cert := r_certificate r in
  let* matches := matches_strings (get cert "matches") in
  newRequest
    {| opt_url := UObj (r_url r);
       opt_method := Some (r_method r);
       opt_header := Some (HArr (read_headers h (r_headers r)));
       opt_body := Some {|
         o_mode := bf mode;
         o_file := bf file;
         o_formdata := bf (fun b' => option_map (map (fun fp => (fp_key fp, fp_value fp))) (formdata b'));
         o_graphql := match b with Some b' => graphql b' | None => JUndef end;
         o_raw := bf raw;
         o_urlencoded := bf (fun b' => option_map (fun qs => UEList (map (fun q => (qp_key q, qp_value q)) qs)) (urlencoded b')) |};
       opt_auth := read_auth h (r_auth r);
       opt_proxy :=
         if truthy proxy then
           JObj [("match", get proxy "match"); ("host", get proxy "host");
                 ("port", get proxy "port"); ("tunnel", get proxy "tunnel");
                 ("disabled", get proxy "disabled"); ("authenticate", get proxy "authenticate");
                 ("username", get proxy "username"); ("password", get proxy "password")]
         else JUndef;
       opt_certificate :=
         JObj [("name", get cert "name"); ("matches", matches); ("key", get cert "key");
               ("cert", get cert "cert"); ("passphrase", get cert "passphrase");
               ("pfx", get cert "pfx")] |}
    h.

End ReqOps.

(** [request.addQueryParams(params)]: [this.url.addQueryParams(params)]. *)
Definition addQueryParams (r : Request) (params : list (string * string)) (h : Heap) : Heap :=
  match read h (r_url r) with
  | Some (OUrl u) => write h (r_url r) (OUrl (mkUrlState (u_href u) (u_query u ++ params)))
  | _ => h
  end.

End Req.

(** ** What the properties of the auth transforms speak about *)

Module AuthMore.
Import Auth.

(** A [{key, value}] entry [findValueInObj] selects for [k]: its key is
    [k] and its value truthy. *)
Definition selects (k : string) (x : jsval) : Prop :=
  is_str (get x "key") k = true /\ truthy (get x "value") = true.

(** A persisted-form field [transformAuthentication] can read: absent or
    falsy, or an array of non-null entries. *)
Definition wf_kvs (v : jsval) : Prop :=
  truthy v = false \/ exists xs, v = JArr xs /\ forall x, In x xs -> x <> JUndef /\ x <> JNull.

End AuthMore.

(** ** The other [Request] and [RequestBody] methods ([req-resp.ts]) *)

Module ReqMore.
Import Body Req.

(** *** [RequestBody.update(opts)] *)

Section BodyUpdate.

Variable QueryParam_parse : string -> list (string * jsval).
Variable JSON_stringify : jsval -> jsres string.

(** [opts.urlencoded.map(entry => ({ key: entry.key, value:
    JSON.stringify(entry.value) }))]: unlike the constructor, [update]
    stringifies the values of a key/value list. *)
Fixpoint stringify_values (kvs : list (string * string)) : jsres (list QueryParam) :=
  match kvs with
  | [] => Ok []
  | (k, v) :: kvs' =>
      let* sv := JSON_stringify (JStr v) in
      let* rest := stringify_values kvs' in
      Ok (mkQueryParam k sv :: rest)
  end.

(** [requestBody.update(opts)]: [file], [formdata], [graphql], [mode] and
    [raw] are assigned first; an exception in the [urlencoded] conversion
    leaves the body with those new fields and its old [urlencoded], and is
    returned beside it. *)
Definition updateBody (b : RequestBody) (opts : RequestBodyOptions)
    : RequestBody * option jserror :=
  let fd := option_map (map (fun '(k, v) => mkFormParam k v)) (o_formdata opts) in
  let b1 := mkRequestBody (o_mode opts) (o_file opts) fd (o_graphql opts) (o_raw opts)
                          (urlencoded b) in
  let ue :=
    match o_urlencoded opts with
    | Some (UEString s) =>
        if String.eqb s "" then Ok None
        else
          let fix conv (es : list (string * jsval)) : jsres (list QueryParam) :=
            match es with
            | [] => Ok []
            | (k, v) :: es' =>
                let* sv := JSON_stringify v in
                let* rest := conv es' in
                Ok (mkQueryParam k sv :: rest)
            end in
          let* qs := conv (QueryParam_parse s) in
          Ok (Some qs)
    | Some (UEList kvs) => let* qs := stringify_values kvs in Ok (Some qs)
    | None => Ok None
    end in
  match ue with
  | Ok u => (mkRequestBody (o_mode opts) (o_file opts) fd (o_graphql opts) (o_raw opts) u, None)
  | Throw e => (b1, Some e)
  end.

End BodyUpdate.

(** *** [request.getHeaders(options)] *)

(** The flags of [options]; an absent [options] reads each of them as
    [undefined]. *)
Record GetHeadersOptions := mkGetHeadersOptions {
  gh_ignoreCase : bool;
  gh_enabled : bool;
  gh_multiValue : bool;
  gh_sanitizeKeys : bool }.

(** [enabled && sanitized && hasName] of the [each] callback. *)
Definition header_selected (o : GetHeadersOptions) (hd : Header) : bool :=
  let enabled := if gh_enabled o then negb (truthy (hd_disabled hd)) else true in
  let sanitized := if gh_sanitizeKeys o then negb (String.eqb (hd_value hd) "") else true in
  let hasName := negb (String.eqb (hd_key hd) "") in
  enabled && sanitized && hasName.

(** [options?.ignoreCase ? header.key?.toLocaleLowerCase() : header.key]. *)
Definition fold_key (o : GetHeadersOptions) (k : string) : string :=
  if gh_ignoreCase o then Resp.toLowerCase k else k.

(** A [Map<string, string[]>] by its entries in insertion order. *)
Definition StrMap := list (string * list string).

Fixpoint map_get (m : StrMap) (k : string) : option (list string) :=
  match m with
  | [] => None
  | (k', v) :: m' => if String.eqb k k' then Some v else map_get m' k
  end.

(** [map.set(k, v)]: an existing key keeps its position. *)
Fixpoint map_set (m : StrMap) (k : string) (v : list string) : StrMap :=
  match m with
  | [] => [(k, v)]
  | (k', v') :: m' => if String.eqb k k' then (k, v) :: m' else (k', v') :: map_set m' k v
  end.

(** One call of the [each] callback: the headers visited so far (with the
    key the callback stored in them) and the map. *)
Definition getHeaders_step (o : GetHeadersOptions) (acc : list Header * StrMap) (hd : Header)
    : list Header * StrMap :=
  let '(hs, m) := acc in
  if negb (header_selected o hd) then ((hs ++ [hd])%list, m)
  else
    let k := fold_key o (hd_key hd) in
    let m' := match map_get m k with
              | Some existingHeader => map_set m k (existingHeader ++ [hd_value hd])%list
              | None => map_set m k [hd_value hd]
              end in
    ((hs ++ [mkHeader k (hd_value hd) (hd_disabled hd)])%list, m').

(** [request.getHeaders(options)]: the heap with the header keys the
    callback rewrote, and the returned object by its entries (the entries of
    [headerMap]; a lookup [obj[k]] is [map_get]). *)
Definition getHeaders (r : Request) (o : GetHeadersOptions) (h : Heap) : Heap * StrMap :=
  let '(hs', m) := fold_left (getHeaders_step o) (read_headers h (r_headers r)) ([], []) in
  (write h (r_headers r) (OHeaders hs'), m).

(** *** [request.removeHeader(toRemove, options)] and
    [request.upsertHeader(header)] *)

(** The filter of [removeHeader] for a string [toRemove] (the [Header]
    argument form is not modelled). *)
Definition keep_on_remove (toRemove : string) (ignoreCase : bool) (hd : Header) : bool :=
  if String.eqb (hd_key hd) "" then false
  else if ignoreCase then
    negb (String.eqb (Resp.toLowerCase (hd_key hd)) (Resp.toLowerCase toRemove))
  else negb (String.eqb (hd_key hd) toRemove).

Definition with_headers (r : Request) (l : loc) : Request :=
  {| r_url := r_url r; r_method := r_method r; r_headers := l; r_body := r_body r;
     r_auth := r_auth r; r_proxy := r_proxy r; r_certificate := r_certificate r |}.

(** [request.removeHeader(toRemove, { ignoreCase })]: [this.headers] becomes
    a new [HeaderList] of the kept headers. *)
Definition removeHeader (r : Request) (toRemove : string) (ignoreCase : bool) (h : Heap)
    : Heap * Request :=
  let filteredHeaders := filter (keep_on_remove toRemove ignoreCase)
                                (read_headers h (r_headers r)) in
  let '(h1, l) := alloc h (OHeaders filteredHeaders) in
  (h1, with_headers r l).

(** [request.upsertHeader(header)]: a new [HeaderList] of the headers whose
    key differs, then [append(new Header(header))] on it. *)
Definition upsertHeader (r : Request) (header : Header) (h : Heap) : Heap * Request :=
  let kept := filter (fun e => negb (String.eqb (hd_key e) (hd_key header)))
                     (read_headers h (r_headers r)) in
  let '(h1, l) := alloc h (OHeaders kept) in
  let h2 := write h1 l (OHeaders (kept ++ [header])%list) in
  (h2, with_headers r l).

(** *** [request.update(options)] *)

Section ReqUpdate.

Variable QueryParam_parse : string -> list (string * jsval).
Variable JSON_stringify : jsval -> jsres string.

(** [request.update(options)]: the fields are assigned in source order, so
    an exception of [new RequestBody(options.body)] leaves [url], [method]
    and [headers] already replaced and the rest as it was; the exception is
    returned beside the state. *)
Definition update (r : Request) (options : RequestOptions) (h : Heap)
    : Heap * Request * option jserror :=
  let '(h1, url) :=
    match opt_url options with
    | UStr s => alloc h (OUrl (newUrl s))
    | UObj l => (h, l)
    end in
  let method := match opt_method options with
                | Some m => if String.eqb m "" then "GET" else m
                | None => "GET"
                end in
  let hs := match opt_header options with
            | Some (HArr hs) => hs
            | Some (HObj kvs) => map (fun '(k, v) => mkHeader k v JUndef) kvs
            | None => []
            end in
  let '(h2, headers) := alloc h1 (OHeaders hs) in
  let r2 := {| r_url := url; r_method := method; r_headers := headers; r_body := r_body r;
               r_auth := r_auth r; r_proxy := r_proxy r;
               r_certificate := r_certificate r |} in
  let bodyv :=
    match opt_body options with
    | Some bo => let* b := newRequestBody QueryParam_parse JSON_stringify bo in Ok (Some b)
    | None => Ok None
    end in
  match bodyv with
  | Throw e => (h2, r2, Some e)
  | Ok bv =>
      let '(h3, body) :=
        match bv with
        | Some b => let '(h', l) := alloc h2 (OBody b) in (h', Some l)
        | None => (h2, None)
        end in
      let '(h4, auth) :=
        alloc h3 (OAuth (js_or (opt_auth options) (JObj [("type", JStr "noauth")]))) in
      (h4, {| r_url := url; r_method := method; r_headers := headers; r_body := body;
              r_auth := auth;
              r_proxy := if truthy (opt_proxy options) then opt_proxy options else JUndef;
              r_certificate := if truthy (opt_certificate options) then opt_certificate options
                               else JUndef |}, None)
  end.

End ReqUpdate.

(** What the properties of [getHeaders] speak about: the values of the
    headers [getHeaders] keeps under the (folded) key [k], in list order. *)
Definition selected_values (o : GetHeadersOptions) (k : string) (hs : list Header)
    : list string :=
  map hd_value (filter (fun hd => header_selected o hd && String.eqb (fold_key o (hd_key hd)) k) hs).

Definition nonempty_opt (vs : list string) : option (list string) :=
  match vs with [] => None | _ => Some vs end.

(** The [href] of the [Url] object at [l]. *)
Definition read_url_href (h : Heap) (l : loc) : option string :=
  match read h l with Some (OUrl u) => Some (u_href u) | _ => None end.

(** [obj[k]] after the callbacks for [vs] ran on a map whose entry for
    [k] was [x]. *)
Definition extend (x : option (list string)) (vs : list string) : option (list string) :=
  match x with
  | Some a => Some (a ++ vs)%list
  | None => nonempty_opt vs
  end.

(** A header as the [getHeaders] callback leaves it. *)
Definition rewrite_key (o : GetHeadersOptions) (hd : Header) : Header :=
  if header_selected o hd then mkHeader (fold_key o (hd_key hd)) (hd_value hd) (hd_disabled hd)
  else hd.

End ReqMore.

(** ** The other [Response] methods ([req-resp.ts]) *)

Module RespMore.
Import Resp.

Record ResponseContentInfo := mkResponseContentInfo {
  ci_mimeType : string;
  ci_mimeFormat : string;
  ci_charset : string;
  ci_fileExtension : string;
  ci_fileName : string;
  ci_contentType : string }.

Section Content.

(** [this.headers.get('Content-Type')?.valueOf()] of a [HeaderList]
    (headers.ts, not in this slice): the value found, [None] when
    [undefined]. *)
Variable header_get : list HeaderOptions -> string -> option string.

(** [response.contentInfo()] *)
Definition contentInfo (r : Response) : ResponseContentInfo :=
  let contentType := header_get (headers r) "Content-Type" in
  let fileExtension := "" in
  (* [fileName = 'response'; fileName += `.${fileExtension}` || ''] *)
  let fileName := "response" ++ ("." ++ fileExtension) in
  {| ci_mimeType := ""; ci_mimeFormat := ""; ci_charset := "";
     ci_fileExtension := fileExtension; ci_fileName := fileName;
     ci_contentType := match contentType with
                       | Some v => if String.eqb v "" then "text/plain" else v
                       | None => "text/plain"
                       end |}.

(** [response.dataURI()]: [this.stream || this.body]; an [ArrayBuffer] is
    truthy even when empty. *)
Definition dataURI (r : Response) : jsres string :=
  let ci := contentInfo r in
  let bodyInBase64 := match stream r with
                      | Some _ => true
                      | None => match body r with [] => false | _ => true end
                      end in
  if negb bodyInBase64 then Throw (Error "dataURI() failed as response body is not defined")
  else Ok ("data:" ++ ci_contentType ci ++ ";baseg4, <base64-encoded-body>").

End Content.

(** The [response] argument of [Response.createFromNode]. *)
Record NodeResponse := mkNodeResponse {
  n_body : text16;
  n_headers : list HeaderOptions;
  n_statusCode : Z;
  n_statusMessage : string;
  n_elapsedTime : Z }.

(** [Response.createFromNode(response, cookies)]: [stream] is the buffer of
    the body's UTF-16 code units. *)
Definition createFromNode (response : NodeResponse) (cookies : list (option CookieOptions)) : Response :=
  let bufView := n_body response in
  newResponse (mkResponseOptions (n_statusCode response) None (Some (n_headers response))
                 (Some cookies) (Some (n_body response)) (Some bufView)
                 (n_elapsedTime response) (Some (n_statusMessage response))).

(** [response.text()] *)
Definition text (r : Response) : text16 := body r.

(** The byte order marks [findBOM] tests for, as code-unit sequences. *)
Definition BOMS : list text16 :=
  [[0xFEFF]; [0xBBBF]; [0xFE; 0xFF]; [0xFF; 0xFE]; [0xEF; 0xBB; 0xBF]]%N.

End RespMore.

Example z_to_string_42 : z_to_string 42 = "42". Proof. reflexivity. Qed.
Example z_to_string_0 : z_to_string 0 = "0". Proof. reflexivity. Qed.
Example z_to_string_neg : z_to_string (-105) = "-105". Proof. reflexivity. Qed.

(** * Properties *)

Module AuthFacts.
Import Auth.

(** Case-split [String.eqb s lit] for every literal [lit] of a list [s] is
    known to avoid. *)
Ltac split_literals s Hnot :=
  repeat match goal with
  | |- context [String.eqb s ?lit] =>
      let E := fresh "E" in
      destruct (String.eqb_spec s lit) as [E|E];
      [subst s; exfalso; apply Hnot; simpl; tauto | ]
  end.

(** C1 (code_bug). [findValueInObj] returns the matching [{key, value}]
    ELEMENT of the persisted array ([Array.prototype.find]), not its value,
    so the engine-form [username] of a basic auth is the pair object rather
    than the string set in the input; and for [oauth1] the values read from
    the array are discarded by [transformAuth], whose [oauth1] branch returns
    the defaults. *)
Theorem C1_transformAuthentication_drops_values :
  transformAuthentication
    (JObj [("type", JStr "basic");
           ("basic", JArr [kv "username" (JStr "alice"); kv "password" (JStr "secret")])])
  = Ok (JObj [("type", JStr "basic"); ("useISO88591", JBool false);
              ("disabled", JBool false);
              ("username", kv "username" (JStr "alice"));
              ("password", kv "password" (JStr "secret"))])
  /\ option_map (fun v => get v "consumerKey")
       (match transformAuthentication
                (JObj [("type", JStr "oauth1");
                       ("oauth1", JArr [kv "consumerKey" (JStr "ck")])]) with
        | Ok v => Some v
        | Throw _ => None
        end) = Some (JStr "").
Proof. split; reflexivity. Qed.

(** C2 (counterexample). [transformAuth] has no failing branch: an
    unrecognised type string silently yields [{ type }]. *)
Lemma C2_transformAuth_unknown_returns_object :
  transformAuth "bogus" (JObj []) = JObj [("type", JStr "bogus")].
Proof. reflexivity. Qed.

(** C2 (amended). An unrecognised [type] string makes [transformAuthentication]
    throw ["unknown auth type: " ++ type] and, when the string is non-empty,
    makes [transformToPreRequestAuth] throw
    ["unknown auth type or unsupported auth type: " ++ type]; [transformAuth]
    instead returns [{ type }] for every type it does not list. *)
Theorem C2_unknown_type_at_boundaries :
  (forall authObj s,
      get authObj "type" = JStr s ->
      ~ In s ["noauth"; "basic"; "digest"; "ntlm"; "oauth1"; "oauth2"; "awsv4";
              "hawk"; "asap"; "netrc"] ->
      transformAuthentication authObj = Throw (Error ("unknown auth type: " ++ s))
      /\ (s <> "" ->
          transformToPreRequestAuth authObj
          = Throw (Error ("unknown auth type or unsupported auth type: " ++ s))))
  /\ (forall t oldAuth,
      ~ In t [AUTH_NONE; AUTH_BASIC; AUTH_DIGEST; AUTH_NTLM; AUTH_OAUTH_1;
              AUTH_OAUTH_2; AUTH_AWS_IAM; AUTH_HAWK; AUTH_ASAP] ->
      transformAuth t oldAuth = JObj [("type", JStr t)]).
Proof.
  split.
  - intros authObj s Hty Hnot. split.
    + unfold transformAuthentication. cbv zeta. rewrite Hty. cbn [is_str].
      split_literals s Hnot. reflexivity.
    + intros Hne. unfold transformToPreRequestAuth. cbv zeta. rewrite Hty.
      assert (Htr : truthy authObj = true)
        by (destruct authObj; simpl in Hty; try discriminate; reflexivity).
      rewrite Htr. cbn [truthy is_str negb orb].
      destruct (String.eqb_spec s "") as [E|E]; [contradiction|]. cbn [negb orb].
      split_literals s Hnot. reflexivity.
  - intros t oldAuth Hnot. unfold transformAuth.
    unfold AUTH_NONE, AUTH_BASIC, AUTH_DIGEST, AUTH_NTLM, AUTH_OAUTH_1,
      AUTH_OAUTH_2, AUTH_AWS_IAM, AUTH_HAWK, AUTH_ASAP in *.
    split_literals t Hnot. reflexivity.
Qed.

Lemma C2_unknown_type_at_boundaries_witness :
  transformAuthentication (JObj [("type", JStr "bearer")])
    = Throw (Error ("unknown auth type: " ++ "bearer"))
  /\ transformAuth "apikey" (JObj []) = JObj [("type", JStr "apikey")].
Proof.
  split.
  - apply (proj1 C2_unknown_type_at_boundaries (JObj [("type", JStr "bearer")]) "bearer").
    + reflexivity.
    + simpl. intuition discriminate.
  - apply (proj2 C2_unknown_type_at_boundaries "apikey" (JObj [])).
    unfold AUTH_NONE, AUTH_BASIC, AUTH_DIGEST, AUTH_NTLM, AUTH_OAUTH_1,
      AUTH_OAUTH_2, AUTH_AWS_IAM, AUTH_HAWK, AUTH_ASAP.
    simpl. intuition discriminate.
Defined.

(** C10. [transformToPreRequestAuth] returns [{ type: 'noauth' }] for a
    [null]/[undefined] auth or one whose [type] is absent or falsy; it only
    throws when both the auth object and its [type] are truthy. *)
Theorem C10_transformToPreRequestAuth_falsy_noauth :
  (forall auth,
      auth = JUndef \/ auth = JNull \/ truthy (get auth "type") = false ->
      transformToPreRequestAuth auth = Ok (JObj [("type", JStr "noauth")]))
  /\ (forall auth e,
      transformToPreRequestAuth auth = Throw e ->
      truthy auth = true /\ truthy (get auth "type") = true).
Proof.
  split.
  - intros auth [->|[->|H]]; try reflexivity.
    unfold transformToPreRequestAuth. cbv zeta. rewrite H, orb_true_r. reflexivity.
  - intros auth e Heq. unfold transformToPreRequestAuth in Heq. cbv zeta in Heq.
    destruct (truthy auth), (truthy (get auth "type")); cbn [negb orb] in Heq;
      try discriminate; auto.
Qed.

Lemma C10_transformToPreRequestAuth_falsy_noauth_witness :
  transformToPreRequestAuth JNull = Ok (JObj [("type", JStr "noauth")])
  /\ transformToPreRequestAuth (JObj [("type", JStr "")]) = Ok (JObj [("type", JStr "noauth")]).
Proof.
  split.
  - apply (proj1 C10_transformToPreRequestAuth_falsy_noauth JNull). right; left; reflexivity.
  - apply (proj1 C10_transformToPreRequestAuth_falsy_noauth (JObj [("type", JStr "")])).
    right; right; reflexivity.
Defined.

End AuthFacts.

Module BodyFacts.
Import Body.

(** C8. A mode outside [{formdata, urlencoded, raw, file, graphql}] (the
    [undefined] mode included) makes [isEmpty()] throw
    ["mode (" ++ mode ++ ") is unexpected"] while [toString()] returns [''];
    on a recognised mode both results depend only on that mode's payload
    field, whatever the list and JSON serialisers do. *)
Theorem C8_isEmpty_throws_toString_empty :
  (forall JSON_stringify formdata_toString urlencoded_toString (b : RequestBody),
      ~ In (mode b) [Some "formdata"; Some "urlencoded"; Some "raw"; Some "file";
                     Some "graphql"] ->
      isEmpty b = Throw (Error ("mode (" ++ mode_to_string (mode b) ++ ") is unexpected"))
      /\ toString JSON_stringify formdata_toString urlencoded_toString b = "")
  /\ (forall JSON_stringify formdata_toString urlencoded_toString m (b b' : RequestBody),
      In m ["formdata"; "urlencoded"; "raw"; "file"; "graphql"] ->
      mode b = Some m -> mode b' = Some m -> same_payload m b b' ->
      isEmpty b = isEmpty b'
      /\ toString JSON_stringify formdata_toString urlencoded_toString b
         = toString JSON_stringify formdata_toString urlencoded_toString b').
Proof.
  split.
  - intros JS FT UT b Hnot.
    assert (Hm : forall s, In (Some s) [Some "formdata"; Some "urlencoded"; Some "raw";
                                        Some "file"; Some "graphql"] ->
                           mode_is (mode b) s = false).
    { intros s Hin. unfold mode_is. destruct (mode b) as [m|] eqn:E; [|reflexivity].
      destruct (String.eqb_spec m s) as [->|]; [contradiction|reflexivity]. }
    unfold isEmpty, toString, toString_try.
    rewrite !Hm by (simpl; tauto). split; reflexivity.
  - intros JS FT UT m b b' Hin Hb Hb' Hsame.
    unfold isEmpty, toString, toString_try, mode_is. rewrite Hb, Hb'.
    simpl in Hin.
    destruct Hin as [<-|[<-|[<-|[<-|[<-|[]]]]]]; cbn in Hsame |- *;
      rewrite Hsame; split; reflexivity.
Qed.

Lemma C8_isEmpty_throws_toString_empty_witness :
  isEmpty (mkRequestBody None None None JUndef (Some "x") None)
    = Throw (Error ("mode (" ++ "undefined" ++ ") is unexpected"))
  /\ toString (fun _ => Ok "") (fun _ => Ok "") (fun _ => Ok "")
       (mkRequestBody (Some "json") None None JUndef (Some "x") None) = "".
Proof.
  split.
  - apply (proj1 C8_isEmpty_throws_toString_empty (fun _ => Ok "") (fun _ => Ok "")
             (fun _ => Ok "") (mkRequestBody None None None JUndef (Some "x") None)).
    simpl. intuition discriminate.
  - apply (proj1 C8_isEmpty_throws_toString_empty (fun _ => Ok "") (fun _ => Ok "")
             (fun _ => Ok "") (mkRequestBody (Some "json") None None JUndef (Some "x") None)).
    simpl. intuition discriminate.
Defined.

End BodyFacts.

Module RespFacts.
Import Resp.

Lemma last_opt_app_single {A} (xs : list A) (x : A) : last_opt (xs ++ [x])%list = Some x.
Proof.
  induction xs as [|y xs IH]; [reflexivity|].
  simpl. destruct (xs ++ [x])%list eqn:E.
  - destruct xs; discriminate.
  - exact IH.
Qed.


(** Every response [fromCurlOutputToResponse] builds takes its code,
    headers and cookies from the last hop, and its status from the table. *)
Lemma fromCurlOutputToResponse_last_hop Cookie_parse readCurlResponse out r :
  fromCurlOutputToResponse Cookie_parse readCurlResponse out = Ok r ->
  exists lh, last_opt (headerResults out) = Some lh
    /\ code r = hr_code lh
    /\ headers r = map (fun h => mkHeaderOptions (rh_name h) (rh_value h)) (hr_headers lh)
    /\ cookies r = cookiesOf Cookie_parse (hr_headers lh)
    /\ status r = RESPONSE_CODE_REASONS (hr_code lh).
Proof.
  unfold fromCurlOutputToResponse.
  destruct (last_opt (headerResults out)) as [lh|]; [|discriminate].
  intros Heq. exists lh. split; [reflexivity|].
  destruct (responseBodyPath out) as [path|].
  - destruct (String.eqb_spec path "") as [->|Hne].
    + inversion Heq; subst; repeat split; reflexivity.
    + assert (Hpath : match path with "" => false | _ => true end = true)
        by (destruct path; [contradiction|reflexivity]).
      destruct path as [|c path']; [contradiction|].
      destruct (readCurlResponse _ _) as [b [e|]].
      * destruct (String.eqb e ""); inversion Heq; subst; repeat split; reflexivity.
      * inversion Heq; subst; repeat split; reflexivity.
  - inversion Heq; subst; repeat split; reflexivity.
Qed.

(** C4 (code_bug). [new Response(options)] never reads [options.status] or
    [options.reason]: its [status] is always the table entry of the code,
    so a reason phrase supplied by the transport result is replaced by the
    table's, and an unlisted code gets [undefined] even with a phrase. *)
Theorem C4_status_ignores_supplied_reason :
  (forall options, status (newResponse options) = RESPONSE_CODE_REASONS (ro_code options))
  /\ status (newResponse (mkResponseOptions 200 (Some "All Good") None None None None 5
                            (Some "All Good"))) = Some "OK"
  /\ status (newResponse (mkResponseOptions 299 (Some "Custom") None None None None 5
                            (Some "Custom"))) = None
  /\ (forall Cookie_parse readCurlResponse,
       match fromCurlOutputToResponse Cookie_parse readCurlResponse
               (mkCurlRequestOutput 5 None [mkHeaderResult [] "HTTP/1.1" 200 "All Good"] None)
       with
       | Ok r => status r = Some "OK"
       | Throw _ => False
       end).
Proof.
  split; [intros; reflexivity|].
  split; [reflexivity|]. split; [reflexivity|].
  intros. reflexivity.
Qed.

(** C7. [json(reviver, strict)]: with a BOM found by [findBOM] and
    [strict = true] it throws the BOM error whatever [JSON.parse] would do;
    otherwise it parses the content with the BOM sliced off, and a parse
    failure is rethrown as ["failed to get json of body: " ++ message]. *)
Theorem C7_json_bom_and_parse_errors :
  (forall r, (0 < findBOM (body r))%nat ->
     forall JSON_parse, json JSON_parse r (Some true) = Throw (Error BOM_ERROR_MESSAGE))
  /\ (forall JSON_parse r strict,
       strict <> Some true \/ findBOM (body r) = 0%nat ->
       (forall v, JSON_parse (skipn (findBOM (body r)) (body r)) = Ok v ->
                  json JSON_parse r strict = Ok v)
       /\ (forall e, JSON_parse (skipn (findBOM (body r)) (body r)) = Throw e ->
                     json JSON_parse r strict = Throw (Error (JSON_ERROR_PREFIX ++ err_message e))))
  /\ (forall rest : text16, findBOM (0xFEFF :: rest)%N = 1%nat)
  /\ (forall rest : text16, findBOM (0xEF :: 0xBB :: 0xBF :: rest)%N = 3%nat).
Proof.
  split; [|split; [|split]].
  - intros r Hpos P. unfold json.
    destruct (Nat.ltb_spec 0 (findBOM (body r))); [reflexivity|lia].
  - intros P r strict Hs.
    assert (Hc : bind (if Nat.ltb 0 (findBOM (body r)) then
                         match strict with
                         | Some true => Throw (Error BOM_ERROR_MESSAGE)
                         | _ => Ok (skipn (findBOM (body r)) (body r))
                         end
                       else Ok (body r)) (fun c => Ok c)
                 = Ok (skipn (findBOM (body r)) (body r))).
    { destruct (Nat.ltb_spec 0 (findBOM (body r))) as [Hlt|Hge].
      - destruct Hs as [Hs|Hs]; [|lia].
        destruct strict as [[|]|]; [contradiction| reflexivity | reflexivity].
      - replace (findBOM (body r)) with 0%nat by lia. reflexivity. }
    unfold json.
    destruct (if Nat.ltb 0 (findBOM (body r)) then _ else _) as [c|e0] eqn:E;
      simpl in Hc; inversion Hc; subst; simpl.
    split; intros x Hx; rewrite Hx; reflexivity.
  - intros rest. reflexivity.
  - intros rest. unfold findBOM, char_code_is. simpl. reflexivity.
Qed.

Lemma C7_json_bom_and_parse_errors_witness :
  json (fun _ => Ok (JObj [])) (mkResponse [0xFEFF; 123; 125]%N 200 [] [] 0 None None) (Some true)
    = Throw (Error BOM_ERROR_MESSAGE)
  /\ json (fun c => if (length c =? 2)%nat then Ok (JObj []) else Throw (mkError "SyntaxError" "bad"))
       (mkResponse [0xFEFF; 123; 125]%N 200 [] [] 0 None None) (Some false) = Ok (JObj []).
Proof.
  split.
  - apply (proj1 C7_json_bom_and_parse_errors (mkResponse [0xFEFF; 123; 125]%N 200 [] [] 0 None None)).
    vm_compute. lia.
  - refine (proj1 (proj1 (proj2 C7_json_bom_and_parse_errors)
             (fun c => if (length c =? 2)%nat then Ok (JObj []) else Throw (mkError "SyntaxError" "bad"))
             (mkResponse [0xFEFF; 123; 125]%N 200 [] [] 0 None None) (Some false)
             (or_introl _)) (JObj []) _).
    + discriminate.
    + reflexivity.
Defined.






End RespFacts.

Module BridgeFacts.
Import Resp Bridge RespFacts.

(** C9. For a bare string URL, a response delivered to the callback has the
    code and headers of the last [headerResults] entry; and for every
    non-empty [headerResults] of an inline-body result that is not
    cancelled, such a response is delivered. *)
Theorem C9_string_url_code_from_last_hop :
  (forall Cookie_parse readCurlResponse settings uuid url reg run reg' cbs r,
     sendRequest Cookie_parse readCurlResponse settings uuid (RLString url) reg run
       = Ok (reg', cbs) ->
     In (CbResponse r) cbs ->
     exists out lh, run = CurlAsync (Resolved out) None
       /\ last_opt (headerResults out) = Some lh
       /\ code r = hr_code lh /\ headers r = header_options_of (hr_headers lh))
  /\ (forall Cookie_parse readCurlResponse settings uuid url reg out hops lh,
     headerResults out = (hops ++ [lh])%list -> responseBodyPath out = None ->
     exists reg' r,
       sendRequest Cookie_parse readCurlResponse settings uuid (RLString url) reg
         (CurlAsync (Resolved out) None) = Ok (reg', [CbResponse r])
       /\ code r = hr_code lh /\ headers r = header_options_of (hr_headers lh)).
Proof.
  split.
  - intros P rd settings uuid url reg run reg' cbs r H Hin.
    unfold sendRequest in H. cbn -[fromCurlOutputToResponse] in H.
    destruct run as [e|fn ab].
    + destruct (String.eqb _ _); inversion H; subst;
        destruct Hin as [Hc|[]]; discriminate.
    + destruct ab as [reason|]; cbn in H.
      * inversion H; subst. destruct Hin as [Hc|[]]; discriminate.
      * destruct fn as [out|e].
        -- destruct (fromCurlOutputToResponse P rd out) as [r0|e] eqn:E;
             inversion H; subst; destruct Hin as [Hc|[]]; inversion Hc; subst.
           destruct (fromCurlOutputToResponse_last_hop P rd out r E)
             as (lh & Hl & Hcode & Hh & _).
           exists out, lh. auto.
        -- inversion H; subst. destruct Hin as [Hc|[]]; discriminate.
  - intros P rd settings uuid url reg out hops lh Hhr Hp.
    unfold sendRequest. cbn -[fromCurlOutputToResponse].
    unfold fromCurlOutputToResponse. rewrite Hhr, last_opt_app_single, Hp.
    do 2 eexists. split; [reflexivity|]. split; reflexivity.
Qed.

Lemma C9_string_url_code_from_last_hop_witness :
  exists reg' r,
    sendRequest (fun _ => PUndefined) (fun _ _ => ([], None)) (mkSettings true) "u"
      (RLString "http://example.com") []
      (CurlAsync (Resolved (mkCurlRequestOutput 7 None
         [mkHeaderResult [mkResponseHeader "Location" "/next"] "HTTP/1.1" 302 "Found";
          mkHeaderResult [mkResponseHeader "Content-Type" "text/plain"] "HTTP/1.1" 200 "OK"]
         None)) None) = Ok (reg', [CbResponse r])
    /\ code r = 200%Z
    /\ headers r = header_options_of [mkResponseHeader "Content-Type" "text/plain"].
Proof.
  apply (proj2 C9_string_url_code_from_last_hop (fun _ => PUndefined) (fun _ _ => ([], None))
           (mkSettings true) "u" "http://example.com" []
           (mkCurlRequestOutput 7 None
              [mkHeaderResult [mkResponseHeader "Location" "/next"] "HTTP/1.1" 302 "Found";
               mkHeaderResult [mkResponseHeader "Content-Type" "text/plain"] "HTTP/1.1" 200 "OK"]
              None)
           [mkHeaderResult [mkResponseHeader "Location" "/next"] "HTTP/1.1" 302 "Found"]
           (mkHeaderResult [mkResponseHeader "Content-Type" "text/plain"] "HTTP/1.1" 200 "OK"));
    reflexivity.
Defined.

(** C3 (code_bug). The entry registered under the request id is removed
    only in the synchronous [catch]; when the engine promise rejects or the
    wait is aborted, the callback gets the error and the entry stays. *)
Theorem C3_cancel_entry_kept_on_async_failure :
  (forall Cookie_parse readCurlResponse settings,
     sendRequest Cookie_parse readCurlResponse settings "u" (RLString "https://example.com") []
       (CurlAsync (Rejected (Error "connect ECONNREFUSED")) None)
     = Ok (["pre-request-script-adhoc-str-req:u"], [CbErrorObj (Error "connect ECONNREFUSED")]))
  /\ (forall Cookie_parse readCurlResponse settings fn,
     sendRequest Cookie_parse readCurlResponse settings "u" (RLString "https://example.com") []
       (CurlAsync fn (Some "This operation was aborted"))
     = Ok (["pre-request-script-adhoc-str-req:u"],
           [CbErrorObj (mkError "AbortError" "This operation was aborted")]))
  /\ (forall Cookie_parse readCurlResponse settings,
     sendRequest Cookie_parse readCurlResponse settings "u" (RLString "https://example.com") []
       (CurlThrowsSync (Error "boom"))
     = Ok ([], [CbErrorString ("Something went wrong: " ++ "boom")])).
Proof. repeat split; reflexivity. Qed.

End BridgeFacts.

Module ReqFacts.
Import Body Req.

(** C5 (code_bug). [clone()] passes [this.url] itself to the constructor,
    which keeps a [Url] argument as is: the clone shares the original's
    [Url], and adding a query parameter through the clone changes the
    original. The clone of a request without body or certificate also gets
    a body (of mode [undefined]) and a certificate. *)
Theorem C5_clone_shares_url :
  forall QueryParam_parse JSON_stringify,
  match newRequest QueryParam_parse JSON_stringify
          (mkRequestOptions (UStr "https://example.com") None None None JUndef JUndef JUndef)
          empty_heap with
  | Ok (h1, r) =>
      match clone QueryParam_parse JSON_stringify r h1 with
      | Ok (h2, c) =>
          r_url c = r_url r
          /\ read h2 (r_url r) = Some (OUrl (mkUrlState "https://example.com" []))
          /\ read (addQueryParams c [("x", "1")] h2) (r_url r)
             = Some (OUrl (mkUrlState "https://example.com" [("x", "1")]))
          /\ r_body r = None /\ r_body c <> None
          /\ r_certificate r = JUndef /\ r_certificate c <> JUndef
      | Throw _ => False
      end
  | Throw _ => False
  end.
Proof.
  intros QP JS. cbv. repeat split; discriminate.
Qed.

End ReqFacts.

Module AuthExtra.
Import Auth AuthMore.

Lemma is_str_true v s : is_str v s = true -> v = JStr s.
Proof. destruct v; simpl; try discriminate. intros H. apply String.eqb_eq in H. now subst. Qed.

(** [findValueInObj k kvs]: a falsy [kvs] gives [''], otherwise the result
    is the first ENTRY whose key is [k] and whose value is truthy (an entry
    with an empty value is skipped), and [undefined] when there is none. *)
Theorem findValueInObj_first_truthy_entry :
  (forall k kvs, truthy kvs = false -> findValueInObj k kvs = Ok (JStr ""))
  /\ (forall k xs,
        (forall y, In y xs -> y <> JUndef /\ y <> JNull /\ ~ selects k y) ->
        findValueInObj k (JArr xs) = Ok JUndef)
  /\ (forall k pre x post,
        (forall y, In y pre -> y <> JUndef /\ y <> JNull /\ ~ selects k y) ->
        selects k x ->
        findValueInObj k (JArr (pre ++ x :: post)%list) = Ok x).
Proof.
  assert (Hskip : forall k y, y <> JUndef -> y <> JNull -> ~ selects k y ->
            exists v, find_callback k y = Ok v /\ truthy v = false).
  { intros k y H1 H2 H3.
    assert (Hc : find_callback k y
                 = Ok (if is_str (get y "key") k then get y "value" else JStr ""))
      by (destruct y; try contradiction; reflexivity).
    rewrite Hc. eexists; split; [reflexivity|].
    destruct (is_str (get y "key") k) eqn:E; [|reflexivity].
    destruct (truthy (get y "value")) eqn:T; [exfalso; apply H3; split; assumption|reflexivity]. }
  split; [|split].
  - intros k kvs H. unfold findValueInObj. rewrite H. reflexivity.
  - intros k xs Hall. unfold findValueInObj. simpl.
    induction xs as [|y xs IH]; [reflexivity|].
    simpl. destruct (Hall y (or_introl eq_refl)) as (H1 & H2 & H3).
    destruct (Hskip k y H1 H2 H3) as (v & -> & Hv); simpl; rewrite Hv;
      apply IH; intros; apply Hall; simpl; auto.
  - intros k pre x post Hall [Hk Hv]. unfold findValueInObj. simpl.
    induction pre as [|y pre IH].
    + destruct x; try discriminate Hk.
      cbn [app array_find find_callback]. rewrite Hk. cbn [bind]. rewrite Hv. reflexivity.
    + simpl. destruct (Hall y (or_introl eq_refl)) as (H1 & H2 & H3).
      destruct (Hskip k y H1 H2 H3) as (v & -> & Hv'); simpl; rewrite Hv';
        apply IH; intros; apply Hall; simpl; auto.
Qed.

Lemma findValueInObj_first_truthy_entry_witness :
  findValueInObj "username"
    (JArr ([kv "username" (JStr "")] ++ kv "username" (JStr "bob") :: [])%list)
  = Ok (kv "username" (JStr "bob")).
Proof.
  apply (proj2 (proj2 findValueInObj_first_truthy_entry)).
  - intros y [<-|[]]. split; [discriminate|split; [discriminate|]].
    intros [_ H]. discriminate.
  - split; reflexivity.
Defined.

Lemma findValueInObj_wf_ok k v : wf_kvs v -> exists r, findValueInObj k v = Ok r.
Proof.
  intros [H|(xs & -> & Hall)].
  - exists (JStr ""). unfold findValueInObj. now rewrite H.
  - unfold findValueInObj. simpl. induction xs as [|y xs IH]; [exists JUndef; reflexivity|].
    simpl. destruct (Hall y (or_introl eq_refl)) as [H1 H2].
    assert (Hc : exists r, find_callback k y = Ok r)
      by (destruct y; try contradiction; eexists; reflexivity).
    destruct Hc as [r Hr]. rewrite Hr. simpl. destruct (truthy r); [exists y; reflexivity|].
    apply IH. intros; apply Hall; simpl; auto.
Qed.

Ltac fv_chain Hwf :=
  repeat match goal with
         | |- context [findValueInObj ?k ?v] =>
             let r := fresh "r" in let E := fresh "E" in
             destruct (findValueInObj_wf_ok k v Hwf) as [r E]; rewrite E; cbn [bind]
         end.

(** [transformAuthentication] does not throw on a recognised type whose
    scheme field is falsy or an array of non-null entries; for [oauth1], [oauth2] and
    [hawk] its result is a fixed object, whatever the arrays contain. *)
Theorem transformAuthentication_wf_total :
  (forall authObj s,
     get authObj "type" = JStr s ->
     In s ["noauth"; "basic"; "digest"; "ntlm"; "oauth1"; "oauth2"; "awsv4";
           "hawk"; "asap"; "netrc"] ->
     wf_kvs (get authObj s) ->
     exists v, transformAuthentication authObj = Ok v)
  /\ (forall authObj s,
     get authObj "type" = JStr s -> In s ["oauth1"; "oauth2"; "hawk"] ->
     wf_kvs (get authObj s) ->
     transformAuthentication authObj = Ok (transformAuth s (JObj []))).
Proof.
  split.
  - intros authObj s Hty Hin Hwf. unfold transformAuthentication. cbv zeta. rewrite Hty.
    destruct Hin as [<-|[<-|[<-|[<-|[<-|[<-|[<-|[<-|[<-|[<-|[]]]]]]]]]]]; cbn [is_str String.eqb Ascii.eqb Bool.eqb];
      fv_chain Hwf; eexists; reflexivity.
  - intros authObj s Hty Hin Hwf. unfold transformAuthentication. cbv zeta. rewrite Hty.
    destruct Hin as [<-|[<-|[<-|[]]]]; cbn [is_str String.eqb Ascii.eqb Bool.eqb];
      fv_chain Hwf; reflexivity.
Qed.

Lemma transformAuthentication_wf_total_witness :
  transformAuthentication (JObj [("type", JStr "oauth1");
                                 ("oauth1", JArr [kv "consumerKey" (JStr "ck")])])
  = Ok (transformAuth "oauth1" (JObj [])).
Proof.
  apply (proj2 transformAuthentication_wf_total _ "oauth1"); [reflexivity|simpl; tauto|].
  right. eexists; split; [reflexivity|]. intros x [<-|[]]. split; discriminate.
Defined.

(** Engine form to persisted form and back for [awsv4]: the persisted
    array uses the keys [accessKeyId] and [secretAccessKey] while
    [transformAuthentication] looks up [accessKey] and [secretKey], so both
    credentials come back as [''] whatever they were. *)
Theorem awsv4_roundtrip_loses_keys :
  forall auth, get auth "type" = JStr "awsv4" ->
  exists persisted v,
    transformToPreRequestAuth auth = Ok persisted
    /\ transformAuthentication persisted = Ok v
    /\ get v "accessKeyId" = JStr "" /\ get v "secretAccessKey" = JStr "".
Proof.
  intros auth Hty.
  destruct auth as [| | | | | |fs]; simpl in Hty; try discriminate.
  unfold transformToPreRequestAuth. cbv zeta. simpl get. rewrite Hty. cbn.
  destruct (truthy (assoc "sessionToken" fs)) eqn:T;
    (do 2 eexists; split; [reflexivity|]; split;
     [unfold transformAuthentication; cbn; rewrite T; reflexivity|split; reflexivity]).
Qed.

Lemma awsv4_roundtrip_loses_keys_witness :
  exists persisted v,
    transformToPreRequestAuth (JObj [("type", JStr "awsv4"); ("accessKeyId", JStr "AK");
                                     ("secretAccessKey", JStr "SK")]) = Ok persisted
    /\ transformAuthentication persisted = Ok v
    /\ get v "accessKeyId" = JStr "" /\ get v "secretAccessKey" = JStr "".
Proof. apply awsv4_roundtrip_loses_keys. reflexivity. Defined.

(** [transformToPreRequestAuth] keeps the [type] of an auth it converts, and
    answers [noauth] when the auth or its type is falsy. *)
Theorem transformToPreRequestAuth_type :
  forall auth o, transformToPreRequestAuth auth = Ok o ->
    get o "type" = if truthy auth && truthy (get auth "type") then get auth "type"
                   else JStr "noauth".
Proof.
  intros auth o H. unfold transformToPreRequestAuth in H. cbv zeta in H.
  destruct (truthy auth), (truthy (get auth "type")); cbn [negb orb andb] in H |- *;
    try (inversion H; reflexivity).
  repeat match goal with
         | H : context [if is_str ?v ?s then _ else _] |- _ =>
             let E := fresh "E" in
             destruct (is_str v s) eqn:E;
             [apply is_str_true in E; rewrite E; inversion H; reflexivity|]
         end.
  discriminate.
Qed.

Lemma transformToPreRequestAuth_type_witness :
  transformToPreRequestAuth (JObj [("type", JStr "digest")])
    = Ok (JObj [("type", JStr "digest");
                ("digest", JArr [kv "disabled" JUndef; kv "username" JUndef;
                                 kv "password" JUndef])])
  /\ get (JObj [("type", JStr "digest");
                ("digest", JArr [kv "disabled" JUndef; kv "username" JUndef;
                                 kv "password" JUndef])]) "type" = JStr "digest".
Proof.
  split; [reflexivity|].
  apply (transformToPreRequestAuth_type (JObj [("type", JStr "digest")])). reflexivity.
Defined.

End AuthExtra.

Module ReqMoreFacts.
Import Body Req ReqMore.

Lemma lookup_cell_skip l l' o cs : l <> l' -> lookup_cell l ((l', o) :: cs) = lookup_cell l cs.
Proof. intros H. simpl. destruct (Nat.eqb_spec l l'); [contradiction|reflexivity]. Qed.

Lemma lookup_cell_hit l o cs : lookup_cell l ((l, o) :: cs) = Some o.
Proof. simpl. now rewrite Nat.eqb_refl. Qed.

Lemma read_write_same h l o : read (write h l o) l = Some o.
Proof. apply lookup_cell_hit. Qed.

Lemma read_write_other h l l' o : l' <> l -> read (write h l o) l' = read h l'.
Proof. apply lookup_cell_skip. Qed.

Lemma read_alloc_other h o l : l <> hnext h -> read (fst (alloc h o)) l = read h l.
Proof. apply lookup_cell_skip. Qed.

Lemma read_alloc_same h o : read (fst (alloc h o)) (snd (alloc h o)) = Some o.
Proof. apply lookup_cell_hit. Qed.

Lemma map_get_set m k v k' :
  map_get (map_set m k v) k' = if String.eqb k' k then Some v else map_get m k'.
Proof.
  induction m as [|[k1 v1] m IH]; simpl.
  - reflexivity.
  - destruct (String.eqb_spec k k1) as [->|Hne]; simpl.
    + destruct (String.eqb k' k1); reflexivity.
    + rewrite IH. destruct (String.eqb_spec k' k1), (String.eqb_spec k' k); congruence.
Qed.

Lemma getHeaders_fold_map o k l hs m :
  map_get (snd (fold_left (getHeaders_step o) l (hs, m))) k
  = extend (map_get m k) (selected_values o k l).
Proof.
  revert hs m. induction l as [|hd l IH]; intros hs m; simpl.
  - unfold selected_values. simpl. destruct (map_get m k); simpl; [now rewrite app_nil_r|reflexivity].
  - unfold selected_values in *. simpl.
    destruct (header_selected o hd) eqn:Hs; simpl.
    + rewrite IH.
      destruct (map_get m (fold_key o (hd_key hd))) as [a|] eqn:Em; rewrite map_get_set;
        destruct (String.eqb_spec k (fold_key o (hd_key hd))) as [E|E];
        (destruct (String.eqb_spec (fold_key o (hd_key hd)) k); [|try congruence]);
        try (subst k; rewrite Em; simpl; try rewrite <- app_assoc; reflexivity);
        try (exfalso; congruence); reflexivity.
    + apply IH.
Qed.

Lemma getHeaders_fold_headers o l hs m :
  fst (fold_left (getHeaders_step o) l (hs, m)) = (hs ++ map (rewrite_key o) l)%list.
Proof.
  revert hs m. induction l as [|hd l IH]; intros hs m; simpl.
  - now rewrite app_nil_r.
  - unfold rewrite_key at 1. destruct (header_selected o hd) eqn:Hs; simpl;
      rewrite IH; now rewrite <- app_assoc.
Qed.

Lemma getHeaders_parts r o h :
  getHeaders r o h
  = (write h (r_headers r) (OHeaders (map (rewrite_key o) (read_headers h (r_headers r)))),
     snd (fold_left (getHeaders_step o) (read_headers h (r_headers r)) ([], []))).
Proof.
  unfold getHeaders.
  destruct (fold_left (getHeaders_step o) (read_headers h (r_headers r)) ([], [])) as [hs' m] eqn:Ef.
  pose proof (f_equal fst Ef) as E. rewrite getHeaders_fold_headers in E.
  simpl in E. subst hs'. reflexivity.
Qed.

(** [getHeaders(options)] merges the headers it keeps by key: [obj[k]] is
    the list of the values, in list order, of the headers that pass the
    [enabled], [sanitizeKeys] and non-empty-key filters and whose key
    (lower-cased under [ignoreCase]) is [k], and [undefined] when there is
    none; every entry is an array, whatever [multiValue] says. *)
Theorem getHeaders_lookup :
  forall r o h k,
    map_get (snd (getHeaders r o h)) k
    = nonempty_opt (selected_values o k (read_headers h (r_headers r))).
Proof.
  intros r o h k. rewrite getHeaders_parts. simpl.
  now rewrite getHeaders_fold_map.
Qed.

(** [getHeaders] rewrites the stored header list: each header it keeps gets
    its key as folded by [ignoreCase] (so lower-cased in place), the others
    are left as they were; without [ignoreCase] the list is unchanged. *)
Theorem getHeaders_lowercases_in_place :
  forall r o h,
    read_headers (fst (getHeaders r o h)) (r_headers r)
    = map (fun hd => if header_selected o hd
                     then mkHeader (fold_key o (hd_key hd)) (hd_value hd) (hd_disabled hd)
                     else hd) (read_headers h (r_headers r))
    /\ (gh_ignoreCase o = false ->
        read_headers (fst (getHeaders r o h)) (r_headers r) = read_headers h (r_headers r)).
Proof.
  intros r o h.
  assert (E : read_headers (fst (getHeaders r o h)) (r_headers r)
              = map (rewrite_key o) (read_headers h (r_headers r))).
  { rewrite getHeaders_parts. unfold read_headers at 1. simpl fst.
    now rewrite read_write_same. }
  split; [exact E|].
  intros Hic. rewrite E. rewrite <- (map_id (read_headers h (r_headers r))) at 2.
  apply map_ext. intros [k v d]. unfold rewrite_key, fold_key. rewrite Hic.
  destruct (header_selected o _); reflexivity.
Qed.

Lemma getHeaders_lowercases_in_place_witness :
  read_headers (fst (getHeaders (mkRequest 0 "GET" 1 None 2 JUndef JUndef)
                                (mkGetHeadersOptions false true false true)
                                (mkHeap 3 [(1, OHeaders [mkHeader "X" "1" JUndef])])))
               1
  = [mkHeader "X" "1" JUndef].
Proof.
  apply (proj2 (getHeaders_lowercases_in_place (mkRequest 0 "GET" 1 None 2 JUndef JUndef)
                 (mkGetHeadersOptions false true false true)
                 (mkHeap 3 [(1, OHeaders [mkHeader "X" "1" JUndef])]))).
  reflexivity.
Defined.

Lemma filter_idem {A} (p : A -> bool) (l : list A) : filter p (filter p l) = filter p l.
Proof.
  induction l as [|x l IH]; simpl; [reflexivity|].
  destruct (p x) eqn:E; simpl; [rewrite E, IH|]; easy.
Qed.

Lemma with_headers_headers r l : r_headers (with_headers r l) = l.
Proof. reflexivity. Qed.

(** [removeHeader(s, { ignoreCase })] keeps exactly the headers that have a
    non-empty key other than [s] (compared lower-cased under [ignoreCase]):
    a header with an empty key is removed whatever [s] is. The kept headers
    go to a new list; no other object changes. *)
Theorem removeHeader_keeps_other_named :
  forall r s ic h,
    (forall hd, In hd (read_headers (fst (removeHeader r s ic h))
                                    (r_headers (snd (removeHeader r s ic h))))
                <-> In hd (read_headers h (r_headers r)) /\ hd_key hd <> ""
                    /\ (if ic then Resp.toLowerCase (hd_key hd) <> Resp.toLowerCase s
                        else hd_key hd <> s))
    /\ r_headers (snd (removeHeader r s ic h)) = hnext h
    /\ (forall l, l <> hnext h -> read (fst (removeHeader r s ic h)) l = read h l).
Proof.
  intros r s ic h. unfold removeHeader. cbn -[filter read_headers].
  split; [|split; [reflexivity|]].
  - intros hd. unfold read_headers at 1. unfold read. cbn -[filter].
    rewrite Nat.eqb_refl. rewrite filter_In. unfold keep_on_remove.
    destruct (String.eqb_spec (hd_key hd) "") as [E|E].
    + split; [intros [_ F]; discriminate|intros (_ & F & _); contradiction].
    + destruct ic.
      * destruct (String.eqb_spec (Resp.toLowerCase (hd_key hd)) (Resp.toLowerCase s));
          simpl; intuition discriminate.
      * destruct (String.eqb_spec (hd_key hd) s); simpl; intuition discriminate.
  - intros l Hl. apply lookup_cell_skip. exact Hl.
Qed.

(** [upsertHeader(header)] leaves the new header last and as the only one
    with its key (compared case-sensitively); every header with another key,
    an empty one included, is still there, and the list is a new one, no
    other object changing. *)
Theorem upsertHeader_single_last :
  forall r hdr h,
    let hs' := read_headers (fst (upsertHeader r hdr h)) (r_headers (snd (upsertHeader r hdr h))) in
    (exists pre, hs' = (pre ++ [hdr])%list /\ forall e, In e pre -> hd_key e <> hd_key hdr)
    /\ (forall e, hd_key e <> hd_key hdr -> (In e hs' <-> In e (read_headers h (r_headers r))))
    /\ r_headers (snd (upsertHeader r hdr h)) = hnext h
    /\ (forall l, l <> hnext h -> read (fst (upsertHeader r hdr h)) l = read h l).
Proof.
  intros r hdr h. cbv zeta. unfold upsertHeader. cbn -[filter read_headers].
  assert (Hr : read_headers
                 (write (mkHeap (S (hnext h)) ((hnext h, OHeaders
                    (filter (fun e => negb (String.eqb (hd_key e) (hd_key hdr)))
                       (read_headers h (r_headers r)))) :: hcells h)) (hnext h)
                    (OHeaders (filter (fun e => negb (String.eqb (hd_key e) (hd_key hdr)))
                       (read_headers h (r_headers r)) ++ [hdr])%list)) (hnext h)
               = (filter (fun e => negb (String.eqb (hd_key e) (hd_key hdr)))
                    (read_headers h (r_headers r)) ++ [hdr])%list).
  { unfold read_headers at 1. now rewrite read_write_same. }
  rewrite Hr.
  split; [|split; [|split; [reflexivity|]]].
  - eexists; split; [reflexivity|]. intros e He. apply filter_In in He as [_ He].
    destruct (String.eqb_spec (hd_key e) (hd_key hdr)); [discriminate|assumption].
  - intros e He. rewrite in_app_iff, filter_In. simpl.
    destruct (String.eqb_spec (hd_key e) (hd_key hdr)); [contradiction|].
    split; [intros [[H _]|[<-|[]]]; [exact H|contradiction]|intros H; left; split; auto].
  - intros l Hl. unfold write, read. simpl.
    destruct (Nat.eqb_spec l (hnext h)); [contradiction|reflexivity].
Qed.

(** Upserting the same header twice leaves the same header list as
    upserting it once. *)
Theorem upsertHeader_idempotent :
  forall r hdr h,
    let '(h1, r1) := upsertHeader r hdr h in
    let '(h2, r2) := upsertHeader r1 hdr h1 in
    read_headers h2 (r_headers r2) = read_headers h1 (r_headers r1).
Proof.
  intros r hdr h. unfold upsertHeader at 2. cbn -[filter read_headers upsertHeader].
  destruct (upsertHeader r hdr h) as [h1 r1] eqn:E1.
  cbn -[filter read_headers].
  assert (Hh1 : read_headers h1 (r_headers r1)
                = (filter (fun e => negb (String.eqb (hd_key e) (hd_key hdr)))
                     (read_headers h (r_headers r)) ++ [hdr])%list).
  { unfold upsertHeader in E1. cbn -[filter read_headers] in E1. inversion E1; subst.
    unfold read_headers at 1. cbn [with_headers r_headers]. now rewrite read_write_same. }
  unfold read_headers at 1. cbn [with_headers r_headers]. rewrite read_write_same.
  rewrite Hh1, filter_app. simpl. rewrite String.eqb_refl. simpl.
  rewrite app_nil_r. f_equal. apply filter_idem.
Qed.

Ltac heap_lookup :=
  unfold read_url_href, read_headers, read_body, read_auth, read; cbn -[lookup_cell];
  repeat (rewrite lookup_cell_skip by lia); rewrite ?lookup_cell_hit.

(** When [new RequestBody(options.body)] throws, [update] throws with the
    request half updated: the new [url], [method] and [headers] are in
    place, while [body], [auth], [proxy] and [certificate] are the old
    ones. *)
Theorem update_partial_on_body_error :
  forall QP JS r opts h bo e,
    opt_body opts = Some bo -> newRequestBody QP JS bo = Throw e ->
    snd (update QP JS r opts h) = Some e
    /\ r_body (snd (fst (update QP JS r opts h))) = r_body r
    /\ r_auth (snd (fst (update QP JS r opts h))) = r_auth r
    /\ r_proxy (snd (fst (update QP JS r opts h))) = r_proxy r
    /\ r_certificate (snd (fst (update QP JS r opts h))) = r_certificate r
    /\ (forall m, opt_method opts = Some m -> m <> "" ->
          r_method (snd (fst (update QP JS r opts h))) = m)
    /\ (forall s, opt_url opts = UStr s ->
          read_url_href (fst (fst (update QP JS r opts h)))
                        (r_url (snd (fst (update QP JS r opts h)))) = Some s).
Proof.
  intros QP JS r opts h bo e Hb He.
  unfold update. rewrite Hb. cbn [bind]. rewrite He. cbn [bind].
  destruct (opt_url opts) as [s|l] eqn:Hu.
  - cbn. repeat split; try reflexivity.
    + intros m Hm Hne. rewrite Hm. destruct (String.eqb_spec m ""); [contradiction|reflexivity].
    + intros s' Hs. inversion Hs; subst. heap_lookup. reflexivity.
  - cbn. repeat split; try reflexivity.
    + intros m Hm Hne. rewrite Hm. destruct (String.eqb_spec m ""); [contradiction|reflexivity].
    + intros s' Hs. discriminate.
Qed.

Lemma update_partial_on_body_error_witness :
  snd (update (fun _ => [("a", JNum 1)]) (fun _ => Throw (TypeError "cyclic"))
          (mkRequest 0 "GET" 1 None 2 JUndef JUndef)
          (mkRequestOptions (UStr "https://x") (Some "POST") None
             (Some (mkRequestBodyOptions (Some "urlencoded") None None JUndef None
                      (Some (UEString "a=1")))) JUndef JUndef JUndef)
          (mkHeap 3 []))
  = Some (TypeError "cyclic").
Proof.
  apply (update_partial_on_body_error (fun _ => [("a", JNum 1)]) (fun _ => Throw (TypeError "cyclic"))
           (mkRequest 0 "GET" 1 None 2 JUndef JUndef)
           (mkRequestOptions (UStr "https://x") (Some "POST") None
              (Some (mkRequestBodyOptions (Some "urlencoded") None None JUndef None
                       (Some (UEString "a=1")))) JUndef JUndef JUndef)
           (mkHeap 3 [])
           (mkRequestBodyOptions (Some "urlencoded") None None JUndef None (Some (UEString "a=1")))
           (TypeError "cyclic")); reflexivity.
Defined.

(** Outside a urlencoded key/value list, [requestBody.update(opts)] leaves
    nothing of the old body: it gives the body [new RequestBody(opts)]
    builds, and throws what the constructor throws, the old [urlencoded]
    then surviving beside the new other fields. *)
Theorem updateBody_as_constructor :
  forall QP JS b opts,
    (forall kvs, o_urlencoded opts <> Some (UEList kvs)) ->
    (forall nb, newRequestBody QP JS opts = Ok nb -> updateBody QP JS b opts = (nb, None))
    /\ (forall e, newRequestBody QP JS opts = Throw e ->
          snd (updateBody QP JS b opts) = Some e
          /\ urlencoded (fst (updateBody QP JS b opts)) = urlencoded b
          /\ mode (fst (updateBody QP JS b opts)) = o_mode opts
          /\ raw (fst (updateBody QP JS b opts)) = o_raw opts
          /\ file (fst (updateBody QP JS b opts)) = o_file opts).
Proof.
  intros QP JS b opts Hnl. unfold updateBody, newRequestBody.
  destruct (o_urlencoded opts) as [[s|kvs]|].
  - destruct (String.eqb s "").
    + split; [intros nb H; inversion H; reflexivity|intros e H; discriminate].
    + match goal with |- context [bind ?m _] => destruct m as [qs|e0] end; cbn [bind].
      * split; [intros nb H; inversion H; reflexivity|intros e H; discriminate].
      * split; [intros nb H; discriminate|intros e H; inversion H; subst; repeat split].
  - exfalso. exact (Hnl kvs eq_refl).
  - split; [intros nb H; inversion H; reflexivity|intros e H; discriminate].
Qed.

Lemma updateBody_as_constructor_witness :
  updateBody (fun _ => []) (fun _ => Ok "")
    (mkRequestBody (Some "raw") None None JUndef (Some "old") (Some [mkQueryParam "a" "1"]))
    (mkRequestBodyOptions (Some "raw") None None JUndef (Some "new") None)
  = (mkRequestBody (Some "raw") None None JUndef (Some "new") None, None).
Proof.
  apply (updateBody_as_constructor (fun _ => []) (fun _ => Ok "")
           (mkRequestBody (Some "raw") None None JUndef (Some "old") (Some [mkQueryParam "a" "1"]))
           (mkRequestBodyOptions (Some "raw") None None JUndef (Some "new") None)).
  - intros kvs H. discriminate.
  - reflexivity.
Defined.

Lemma formdata_roundtrip (fd : list FormParam) :
  map (fun '(k, v) => mkFormParam k v) (map (fun fp => (fp_key fp, fp_value fp)) fd) = fd.
Proof. induction fd as [|[k v] fd IH]; simpl; [reflexivity|now rewrite IH]. Qed.

Lemma urlencoded_roundtrip (qs : list QueryParam) :
  map (fun '(k, v) => mkQueryParam k v) (map (fun q => (qp_key q, qp_value q)) qs) = qs.
Proof. induction qs as [|[k v] qs IH]; simpl; [reflexivity|now rewrite IH]. Qed.

Lemma clone_shape QP JS r h h' r' :
  clone QP JS r h = Ok (h', r') ->
  r_headers r' = hnext h /\ r_body r' = Some (S (hnext h)) /\ r_auth r' = S (S (hnext h))
  /\ h' = mkHeap (S (S (S (hnext h))))
           ((S (S (hnext h)), OAuth (js_or (read_auth h (r_auth r)) (JObj [("type", JStr "noauth")])))
            :: (S (hnext h), OBody (match read_body h (r_body r) with
                                    | Some b => b
                                    | None => mkRequestBody None None None JUndef None None
                                    end))
            :: (hnext h, OHeaders (read_headers h (r_headers r))) :: hcells h).
Proof.
  intros H. unfold clone in H.
  destruct (matches_strings (get (r_certificate r) "matches")) as [m|e]; [|discriminate].
  cbn [bind] in H. unfold newRequest in H.
  destruct (read_body h (r_body r)) as [[md fl fd gq rw ue]|].
  - destruct ue as [qs|]; cbn in H; inversion H; subst; clear H;
      (repeat split; [reflexivity..|]); cbn;
      destruct fd; cbn; rewrite ?formdata_roundtrip, ?urlencoded_roundtrip; reflexivity.
  - cbn in H. inversion H; subst. repeat split.
Qed.

(** [clone()] copies the header list and the body into new containers: the
    clone's header list and body hold the source's values (a source without
    a body gets a body with every field [undefined]), both containers lie
    beyond every object allocated before, and no earlier object changes. *)
Theorem clone_copies_into_new_containers :
  forall QP JS r h h' r',
    clone QP JS r h = Ok (h', r') ->
    read_headers h' (r_headers r') = read_headers h (r_headers r)
    /\ read_body h' (r_body r')
       = Some (match read_body h (r_body r) with
               | Some b => b
               | None => mkRequestBody None None None JUndef None None
               end)
    /\ hnext h <= r_headers r'
    /\ (forall l, r_body r' = Some l -> hnext h <= l)
    /\ (forall l, l < hnext h -> read h' l = read h l).
Proof.
  intros QP JS r h h' r' H.
  destruct (clone_shape QP JS r h h' r' H) as (Hh & Hb & Ha & ->).
  rewrite Hh, Hb. split; [|split; [|split; [lia|split]]].
  - heap_lookup. reflexivity.
  - heap_lookup. reflexivity.
  - intros l E. inversion E. lia.
  - intros l Hl. unfold read. cbn -[lookup_cell].
    rewrite !lookup_cell_skip by lia. reflexivity.
Qed.

Lemma clone_copies_into_new_containers_witness :
  exists h' r',
    clone (fun _ => []) (fun _ => Ok "") (mkRequest 0 "GET" 1 None 2 JUndef JUndef)
      (mkHeap 3 [(2, OAuth (JObj [("type", JStr "noauth")]));
                 (1, OHeaders [mkHeader "A" "1" JUndef]);
                 (0, OUrl (newUrl "https://x"))]) = Ok (h', r')
    /\ read_headers h' (r_headers r') = [mkHeader "A" "1" JUndef].
Proof.
  do 2 eexists. split; [reflexivity|].
  apply (clone_copies_into_new_containers (fun _ => []) (fun _ => Ok "")
           (mkRequest 0 "GET" 1 None 2 JUndef JUndef)
           (mkHeap 3 [(2, OAuth (JObj [("type", JStr "noauth")]));
                      (1, OHeaders [mkHeader "A" "1" JUndef]);
                      (0, OUrl (newUrl "https://x"))])).
  reflexivity.
Defined.

(** A clone of a request without a body has a body whose mode is
    [undefined]: [isEmpty()] on it throws while [toString()] gives ['']. *)
Theorem clone_without_body_has_modeless_body :
  forall QP JS r h h' r',
    read_body h (r_body r) = None ->
    clone QP JS r h = Ok (h', r') ->
    exists b, read_body h' (r_body r') = Some b /\ mode b = None
      /\ isEmpty b = Throw (Error "mode (undefined) is unexpected")
      /\ (forall JS' fts uts, toString JS' fts uts b = "").
Proof.
  intros QP JS r h h' r' Hnb H.
  destruct (clone_shape QP JS r h h' r' H) as (Hh & Hb & Ha & ->).
  rewrite Hnb in *. exists (mkRequestBody None None None JUndef None None).
  split; [rewrite Hb; heap_lookup; reflexivity|].
  split; [reflexivity|split; [reflexivity|]]. intros. reflexivity.
Qed.

Lemma clone_without_body_has_modeless_body_witness :
  exists h' r',
    clone (fun _ => []) (fun _ => Ok "") (mkRequest 0 "GET" 0 None 0 JUndef JUndef) (mkHeap 1 [])
      = Ok (h', r')
    /\ exists b, read_body h' (r_body r') = Some b /\ mode b = None
         /\ isEmpty b = Throw (Error "mode (undefined) is unexpected")
         /\ (forall JS' fts uts, toString JS' fts uts b = "").
Proof.
  do 2 eexists. split; [reflexivity|].
  apply (clone_without_body_has_modeless_body (fun _ => []) (fun _ => Ok "")
           (mkRequest 0 "GET" 0 None 0 JUndef JUndef) (mkHeap 1 [])); reflexivity.
Defined.

(** [new RequestBody(opts)] throws only for a non-empty urlencoded string,
    and then with the error [JSON.stringify] throws on one of the values
    [QueryParam.parse] gives. *)
Theorem newRequestBody_throws_only_on_stringify :
  forall QP JS opts e,
    newRequestBody QP JS opts = Throw e ->
    exists s k v, o_urlencoded opts = Some (UEString s) /\ s <> ""
      /\ In (k, v) (QP s) /\ JS v = Throw e.
Proof.
  intros QP JS opts e H. unfold newRequestBody in H.
  destruct (o_urlencoded opts) as [[s|kvs]|]; cbn [bind] in H; try discriminate.
  destruct (String.eqb_spec s "") as [Es|Es]; [discriminate|].
  exists s.
  match type of H with
  | context [bind (?f (QP s)) _] =>
      assert (Hc : forall es, f es = Throw e -> exists k v, In (k, v) es /\ JS v = Throw e)
  end.
  { induction es as [|[k v] es IH]; intros Hf; [discriminate|].
    cbn in Hf. destruct (JS v) as [sv|e1] eqn:Ev; cbn [bind] in Hf.
    - match type of Hf with
      | context [bind ?m _] => destruct m as [rest|e2] eqn:Er; cbn [bind] in Hf
      end; [discriminate|]. inversion Hf; subst.
      edestruct IH as (k' & v' & Hin & Hv); [reflexivity|]. exists k', v'. simpl. auto.
    - inversion Hf; subst. exists k, v. simpl. auto. }
  match type of H with
  | context [bind (?f (QP s)) _] => destruct (f (QP s)) as [qs|e1] eqn:Ec; cbn [bind] in H
  end; [discriminate|]. inversion H; subst.
  destruct (Hc _ Ec) as (k & v & Hin & Hv). exists k, v. auto.
Qed.

Lemma newRequestBody_throws_only_on_stringify_witness :
  exists s k v,
    o_urlencoded (mkRequestBodyOptions (Some "urlencoded") None None JUndef None
                    (Some (UEString "a=1"))) = Some (UEString s) /\ s <> ""
    /\ In (k, v) [("a", JNum 1)] /\ @Throw string (TypeError "cyclic") = Throw (TypeError "cyclic").
Proof.
  apply (newRequestBody_throws_only_on_stringify (fun _ => [("a", JNum 1)])
           (fun _ => Throw (TypeError "cyclic"))
           (mkRequestBodyOptions (Some "urlencoded") None None JUndef None (Some (UEString "a=1")))).
  reflexivity.
Defined.

End ReqMoreFacts.

Module RespMoreFacts.
Import Resp RespMore.

(** [findBOM] returns the length of the byte order mark the content starts
    with, and [0] exactly when it starts with none of them. *)
Theorem findBOM_detects_marks :
  (forall bom rest, In bom BOMS -> findBOM (bom ++ rest)%list = length bom)
  /\ (forall c, findBOM c = 0%nat \/ In (firstn (findBOM c) c) BOMS).
Proof.
  split.
  - intros bom rest Hin.
    destruct Hin as [<-|[<-|[<-|[<-|[<-|[]]]]]]; reflexivity.
  - intros c. unfold findBOM, char_code_is.
    destruct c as [|x [|y [|z rest]]]; simpl;
      repeat (match goal with
              | |- context [N.eqb ?a ?b] => is_var a; destruct (N.eqb_spec a b); subst
              end; simpl);
      first [left; reflexivity | right; simpl; tauto].
Qed.

(** [dataURI()] throws exactly when the response has no stream and an empty
    body; otherwise the URI depends on the headers only, never on the
    body. *)
Theorem dataURI_ignores_body :
  forall hg r,
    (dataURI hg r = Throw (Error "dataURI() failed as response body is not defined")
       <-> stream r = None /\ body r = [])
    /\ (forall r', headers r' = headers r ->
          (stream r' <> None \/ body r' <> []) -> (stream r <> None \/ body r <> []) ->
          dataURI hg r' = dataURI hg r).
Proof.
  intros hg r. split.
  - unfold dataURI. destruct (stream r), (body r); simpl;
      (split; [intros H; try discriminate; auto|intros [H1 H2]; try discriminate; reflexivity]).
  - intros r' Hh H' H. unfold dataURI, contentInfo. rewrite Hh.
    destruct (stream r'), (body r'), (stream r), (body r); simpl;
      try reflexivity; exfalso; intuition congruence.
Qed.

Lemma dataURI_ignores_body_witness :
  dataURI (fun _ _ => Some "application/json")
    (mkResponse [65%N] 200 [] [] 0 None None)
  = dataURI (fun _ _ => Some "application/json")
    (mkResponse [66%N; 67%N] 200 [] [] 0 None None).
Proof.
  apply (dataURI_ignores_body (fun _ _ => Some "application/json")
           (mkResponse [66%N; 67%N] 200 [] [] 0 None None)); [reflexivity|right; discriminate..].
Defined.

(** A response made by [createFromNode] always has a stream, the buffer of
    its body's code units, so [dataURI()] on it never throws, even for an
    empty body. *)
Theorem createFromNode_dataURI_total :
  forall hg n cookies,
    stream (createFromNode n cookies) = Some (n_body n)
    /\ text (createFromNode n cookies) = n_body n
    /\ exists s, dataURI hg (createFromNode n cookies) = Ok s.
Proof.
  intros hg n cookies. split; [reflexivity|split; [reflexivity|]].
  eexists. reflexivity.
Qed.

(** How [fromCurlOutputToResponse] gets the body: with no (or an empty)
    [responseBodyPath] the body is [''] and the file is never read; otherwise
    the read body is used, unless the read reports a non-empty error, which
    is thrown. The response never has a stream, so without a body file its
    [dataURI()] throws. *)
Theorem fromCurlOutputToResponse_body :
  forall CP RC result hop,
    last_opt (headerResults result) = Some hop ->
    ((responseBodyPath result = None \/ responseBodyPath result = Some "") ->
       exists resp, fromCurlOutputToResponse CP RC result = Ok resp
         /\ body resp = [] /\ stream resp = None
         /\ forall hg, dataURI hg resp
                       = Throw (Error "dataURI() failed as response body is not defined"))
    /\ (forall path b err,
          responseBodyPath result = Some path -> path <> "" ->
          RC path (bodyCompression result) = (b, err) ->
          match err with
          | Some e => e <> "" -> fromCurlOutputToResponse CP RC result = Throw (Error e)
          | None => True
          end
          /\ ((err = None \/ err = Some "") ->
              exists resp, fromCurlOutputToResponse CP RC result = Ok resp
                /\ body resp = b /\ stream resp = None)).
Proof.
  intros CP RC result hop Hl. unfold fromCurlOutputToResponse. rewrite Hl. split.
  - intros [Hp|Hp]; rewrite Hp; eexists; (split; [reflexivity|]);
      (split; [reflexivity|split; [reflexivity|]]); intros hg; reflexivity.
  - intros path b err Hp Hne Hrc. rewrite Hp.
    assert (Hm : forall (A : Type) (x y : A), match path with "" => x | _ => y end = y).
    { intros A x y. destruct path as [|c p]; [contradiction|reflexivity]. }
    rewrite Hm, Hrc. split.
    + destruct err as [e|]; [|exact I]. intros He.
      destruct (String.eqb_spec e ""); [contradiction|reflexivity].
    + intros [->| ->]; eexists; (split; [reflexivity|split; reflexivity]).
Qed.

Lemma fromCurlOutputToResponse_body_witness :
  fromCurlOutputToResponse (fun _ => PUndefined) (fun _ _ => ([], Some "ENOENT"))
    (mkCurlRequestOutput 5 None [mkHeaderResult [] "HTTP/1.1" 200 "OK"] (Some "/tmp/body"))
  = Throw (Error "ENOENT").
Proof.
  apply (proj1 (proj2 (fromCurlOutputToResponse_body (fun _ => PUndefined) (fun _ _ => ([], Some "ENOENT"))
           (mkCurlRequestOutput 5 None [mkHeaderResult [] "HTTP/1.1" 200 "OK"] (Some "/tmp/body"))
           (mkHeaderResult [] "HTTP/1.1" 200 "OK") eq_refl)
           "/tmp/body" [] (Some "ENOENT") eq_refl ltac:(discriminate) eq_refl)).
  discriminate.
Defined.

End RespMoreFacts.

Module BridgeMoreFacts.
Import Resp Bridge.

Lemma delete_keeps_other rg id x :
  x <> id -> (In x (deleteCancelRequestFunctionMap rg id) <-> In x rg).
Proof.
  intros Hx. unfold deleteCancelRequestFunctionMap. rewrite filter_In.
  destruct (String.eqb_spec x id); [contradiction|]. simpl. tauto.
Qed.

Lemma delete_removes rg id : ~ In id (deleteCancelRequestFunctionMap rg id).
Proof.
  intros H. unfold deleteCancelRequestFunctionMap in H. apply filter_In in H as [_ H].
  rewrite String.eqb_refl in H. discriminate.
Qed.

Lemma set_keeps_other rg id x :
  x <> id -> (In x (setCancelRequestFunctionMap rg id) <-> In x rg).
Proof.
  intros Hx. unfold setCancelRequestFunctionMap. cbn [In].
  rewrite (delete_keeps_other _ _ _ Hx). intuition congruence.
Qed.

(** With a [cb] that always returns, [sendRequest_cb] is [sendRequest]:
    the same registry and calls, and only the lowering's error escapes. *)
Lemma sendRequest_cb_returning CP RC cb settings uuid request reg run :
  (forall c, cb c = None) ->
  sendRequest_cb CP RC cb settings uuid request reg run
  = match sendRequest CP RC settings uuid request reg run with
    | Ok (reg', calls) => (reg', calls, None)
    | Throw e => (reg, [], Some e)
    end.
Proof.
  intros Hcb. unfold sendRequest_cb, sendRequest.
  destruct (fromRequestToCurlOptions settings uuid request) as [opts|e]; cbn [bind]; [|reflexivity].
  destruct run as [err|fn ab].
  - destruct (String.eqb (err_name err) "AbortError"); rewrite Hcb; reflexivity.
  - destruct (cancellablePromise ab fn) as [o|e]; [|reflexivity].
    destruct (fromCurlOutputToResponse CP RC o); [rewrite Hcb|]; reflexivity.
Qed.

(** When the request lowers, [sendRequest] calls [cb] once, or twice when
    [cb] throws on the response: the second call gets the thrown error. An
    exception of [cb] escapes [sendRequest] only when the engine call threw
    synchronously. Other entries of the cancellation registry are kept, and
    the request's own entry stays there exactly when the engine call did
    not throw synchronously. *)
Theorem sendRequest_cb_calls :
  forall CP RC cb settings uuid request reg run opts reg' calls ex,
    fromRequestToCurlOptions settings uuid request = Ok opts ->
    sendRequest_cb CP RC cb settings uuid request reg run = (reg', calls, ex) ->
    ((exists c, calls = [c] /\ forall r, c = CbResponse r -> cb c = None)
     \/ (exists r e, calls = [CbResponse r; CbErrorObj e] /\ cb (CbResponse r) = Some e))
    /\ (forall e, ex = Some e <->
          exists err c, run = CurlThrowsSync err /\ calls = [c] /\ cb c = Some e)
    /\ (forall x, x <> requestId opts -> (In x reg' <-> In x reg))
    /\ (In (requestId opts) reg' <-> exists fn ab, run = CurlAsync fn ab).
Proof.
  intros CP RC cb settings uuid request reg run opts reg' calls ex Hlow H.
  unfold sendRequest_cb in H. rewrite Hlow in H. cbv zeta in H.
  destruct run as [err|fn ab].
  - set (call := if String.eqb (err_name err) "AbortError" then _ else _) in H.
    assert (Hcall : forall r, call <> CbResponse r).
    { intros r. unfold call. destruct (String.eqb _ _); discriminate. }
    apply pair_equal_spec in H as [H H3]. apply pair_equal_spec in H as [H1 H2].
    subst reg' calls ex.
    split; [left; exists call; split; [reflexivity|intros r Hr; exfalso; exact (Hcall r Hr)]|].
    split.
    + intros e. split.
      * intros He. exists err, call. auto.
      * intros (err' & c & _ & Hc & He). injection Hc as ->. exact He.
    + split.
      * intros x Hx. rewrite (delete_keeps_other _ _ _ Hx). exact (set_keeps_other _ _ _ Hx).
      * split; [intros Hin; exfalso; exact (delete_removes _ _ Hin)
               |intros (fn & ab & E); discriminate].
  - assert (Hreg : (forall x, x <> requestId opts ->
                      (In x (setCancelRequestFunctionMap reg (requestId opts)) <-> In x reg))
                   /\ (In (requestId opts) (setCancelRequestFunctionMap reg (requestId opts))
                       <-> exists fn' ab', CurlAsync fn ab = CurlAsync fn' ab')).
    { split; [intros x Hx; exact (set_keeps_other _ _ _ Hx)|].
      split; [intros _; eauto|intros _; left; reflexivity]. }
    assert (Hnone : forall e, None = Some e <->
              exists err c, CurlAsync fn ab = CurlThrowsSync err /\ calls = [c] /\ cb c = Some e).
    { intros e. split; [discriminate|intros (err & c & E & _); discriminate]. }
    destruct (cancellablePromise ab fn) as [o|e1].
    + destruct (fromCurlOutputToResponse CP RC o) as [t|e1].
      * destruct (cb (CbResponse t)) as [e2|] eqn:Ecb; injection H as <- <- <-.
        -- split; [right; exists t, e2; auto|]. split; [exact Hnone|exact Hreg].
        -- split; [left; exists (CbResponse t); split; [reflexivity|]|].
           ++ intros r Hr. injection Hr as ->. exact Ecb.
           ++ split; [exact Hnone|exact Hreg].
      * injection H as <- <- <-.
        split; [left; exists (CbErrorObj e1); split; [reflexivity|intros r Hr; discriminate]|].
        split; [exact Hnone|exact Hreg].
    + injection H as <- <- <-.
      split; [left; exists (CbErrorObj e1); split; [reflexivity|intros r Hr; discriminate]|].
      split; [exact Hnone|exact Hreg].
Qed.

Lemma sendRequest_cb_calls_witness :
  match sendRequest_cb (fun _ => PUndefined) (fun _ _ => ([], None))
          (fun c => match c with CbResponse _ => Some (mkError "TypeError" "boom") | _ => None end)
          (mkSettings true) "u" (RLString "http://example.com") []
          (CurlAsync (Resolved (mkCurlRequestOutput 7 None
             [mkHeaderResult [] "HTTP/1.1" 200 "OK"] None)) None) with
  | (reg', calls, ex) =>
      ex = None /\ In "pre-request-script-adhoc-str-req:u" reg'
      /\ exists r, calls = [CbResponse r; CbErrorObj (mkError "TypeError" "boom")]
  end.
Proof.
  destruct (sendRequest_cb (fun _ => PUndefined) (fun _ _ => ([], None))
          (fun c => match c with CbResponse _ => Some (mkError "TypeError" "boom") | _ => None end)
          (mkSettings true) "u" (RLString "http://example.com") []
          (CurlAsync (Resolved (mkCurlRequestOutput 7 None
             [mkHeaderResult [] "HTTP/1.1" 200 "OK"] None)) None))
    as [[reg' calls] ex] eqn:E.
  destruct (sendRequest_cb_calls (fun _ => PUndefined) (fun _ _ => ([], None))
      (fun c => match c with CbResponse _ => Some (mkError "TypeError" "boom") | _ => None end)
      (mkSettings true) "u" (RLString "http://example.com") []
      (CurlAsync (Resolved (mkCurlRequestOutput 7 None
         [mkHeaderResult [] "HTTP/1.1" 200 "OK"] None)) None) _ reg' calls ex eq_refl E)
    as (Hc & Hex & _ & Hin).
  split; [|split].
  - destruct ex as [e0|]; [|reflexivity].
    destruct (proj1 (Hex e0) eq_refl) as (err & c & Hr & _). discriminate.
  - apply Hin. eauto.
  - destruct Hc as [(c & Hc & _)|(r & e & Hc & He)].
    + subst calls. vm_compute in E. discriminate.
    + exists r. rewrite Hc. simpl in He. injection He as <-. reflexivity.
Defined.

End BridgeMoreFacts.
